(** * weather_server: the persistence layer, the provider client, the
    refresh scheduler and the HTTP handlers, embedded from
    [app/models.py], [app/database.py], [app/weather_api.py] and
    [app/main.py].

    Conventions of the embedding.
    - Python values that travel through dictionaries ([Dict[str, Any]], the
      decoded JSON of the provider) are [pyval]; dictionaries are
      [gmap string pyval].
    - Coordinates are IEEE binary64 numbers ([PrimFloat.float]), compared and
      shifted by [0.1] exactly as the SQL filter does.
    - A [datetime] is its wall-clock reading in microseconds together with
      its optional UTC offset ([tzinfo]); the range checks of the [datetime]
      module (years 1 to 9999) are left out.  The column
      [WeatherData.timestamp] is declared without [timezone=True], and the
      SQLite backend of [DATABASE_URL] keeps date-times as text without an
      offset, so every timestamp read back from a row is naive.
    - Exceptions are explicit: a computation yields [Ok v] or [Raise e], and
      [try ... except Exception] is [try_except].
    - The two tables are lists in storage (row id) order.  The engine itself
      is total: its I/O failures and the column constraints it enforces on
      values are outside the model; the uniqueness of city names, which the
      code checks itself, is the invariant [names_unique]. *)

From Stdlib Require Import ZArith Ascii String Floats.PrimFloat.
From stdpp Require Import gmap strings list sorting.

Set Warnings "-register-all,-inexact-float".
Local Open Scope Z_scope.

(** ** Python values and exceptions *)

Inductive pyval :=
| PNone
| PBool (b : bool)
| PNum (x : float)
| PStr (s : string)
| PList (l : list pyval)
| PDict (d : gmap string pyval).

(** [v is not None] *)
Definition is_not_None (v : pyval) : bool :=
  match v with PNone => false | _ => true end.

Inductive exn :=
| ValueError            (* datetime.fromisoformat on a bad string *)
| TypeError             (* naive/aware date-time arithmetic *)
| AttributeError        (* [.get] on something that is not a dict *)
| MultipleResultsFound  (* sqlalchemy: one_or_none() on two or more rows *)
| TransportError        (* httpx.HTTPError: timeout, connection failure *)
| HTTPStatusError (status : Z)   (* httpx.HTTPError from raise_for_status *)
| JSONDecodeError       (* response.json() on a body that is not JSON *)
| HTTPException (status_code : Z) (detail : string).  (* fastapi *)

Inductive result (A : Type) :=
| Ok (a : A)
| Raise (e : exn).
Arguments Ok {A} a.
Arguments Raise {A} e.

Definition rbind {A B} (r : result A) (k : A → result B) : result B :=
  match r with Ok a => k a | Raise e => Raise e end.

(** [try: body / except Exception as e: handler e] on pure code *)
Definition try_except_pure {A} (body : result A) (handler : exn → result A) : result A :=
  match body with Ok a => Ok a | Raise e => handler e end.

(** [d.get(k)] on a Python value: [AttributeError] unless [d] is a dict,
    [None] for a missing key. *)
Definition py_get (d : pyval) (k : string) : result pyval :=
  match d with
  | PDict m => Ok (default PNone (m !! k))
  | _ => Raise AttributeError
  end.

(** [d.get(k, dflt)] *)
Definition py_get_default (d : pyval) (k : string) (dflt : pyval) : result pyval :=
  match d with
  | PDict m => Ok (default dflt (m !! k))
  | _ => Raise AttributeError
  end.

(** [d.get(k)] on a value known to be a dict *)
Definition dict_get (d : gmap string pyval) (k : string) : pyval :=
  default PNone (d !! k).

(** Truth value of a dict: empty is false. *)
Definition dict_truthy (d : gmap string pyval) : bool :=
  negb (Nat.eqb (size d) 0).

(** ** Date-times *)

Record datetime := {
  wall : Z;               (* wall-clock reading, microseconds since 1970-01-01T00:00:00 *)
  utcoffset : option Z    (* tzinfo: None for a naive value, offset in microseconds otherwise *)
}.

Definition SECOND_US : Z := 1000000.
Definition DAY_US : Z := 86400 * SECOND_US.

Definition naive (t : Z) : datetime := {| wall := t; utcoffset := None |}.

(** [datetime.now(timezone.utc)] for a clock reading [t] *)
Definition aware_utc (t : Z) : datetime := {| wall := t; utcoffset := Some 0 |}.

(** [dt.replace(hour=0, minute=0, second=0, microsecond=0)]: the wall clock
    goes back to midnight, [tzinfo] is kept. *)
Definition replace_midnight (dt : datetime) : datetime :=
  {| wall := wall dt - wall dt mod DAY_US; utcoffset := utcoffset dt |}.

(** [dt + timedelta(days=n)] *)
Definition add_days (dt : datetime) (n : Z) : datetime :=
  {| wall := wall dt + n * DAY_US; utcoffset := utcoffset dt |}.

(** [(a - b)] as a count of microseconds: Python refuses to subtract a naive
    and an aware value. *)
Definition datetime_sub (a b : datetime) : result Z :=
  match utcoffset a, utcoffset b with
  | None, None => Ok (wall a - wall b)
  | Some oa, Some ob => Ok ((wall a - oa) - (wall b - ob))
  | _, _ => Raise TypeError
  end.

(** The text and the bound parameters SQLite compares carry the wall-clock
    fields only; a stored value comes back naive. *)
Definition to_column (dt : datetime) : Z := wall dt.
Definition from_column (t : Z) : datetime := naive t.

(** The two library functions the query path calls on strings. *)
Class DatetimeLib := {
  fromisoformat : string → result datetime;   (* ValueError on a bad string *)
  isoformat : datetime → string
}.

(** ** Rows and tables (models.py) *)

Record City := {
  c_id : Z;
  c_name : string;
  c_latitude : float;
  c_longitude : float;
  c_is_active : bool;
  c_created_at : Z
}.

Record WeatherData := {
  wd_id : Z;
  wd_city_id : Z;
  wd_timestamp : Z;
  wd_temperature : pyval;
  wd_wind_speed : pyval;
  wd_pressure : pyval;
  wd_humidity : pyval;
  wd_precipitation : pyval;
  wd_recorded_at : Z
}.

Record DB := {
  tbl_cities : list City;              (* table 'cities' *)
  tbl_weather_data : list WeatherData  (* table 'weather_data' *)
}.

(** [scalars().one_or_none()] *)
Definition one_or_none {A} (rows : list A) : result (option A) :=
  match rows with
  | [] => Ok None
  | [x] => Ok (Some x)
  | _ => Raise MultipleResultsFound
  end.

(** Integer primary key: one more than the largest id in the table. *)
Definition next_id (ids : list Z) : Z := 1 + foldr Z.max 0 ids.

Definition name_is (name : string) (c : City) : bool :=
  bool_decide (c_name c = name).

(** [select(City).where(City.name == name)] *)
Definition select_city_by_name (db : DB) (name : string) : list City :=
  List.filter (name_is name) (tbl_cities db).

(** ** The world: the store, the provider and the clock *)

(** What one request to the provider comes back with: no response at all
    (timeout, connection error), or a status code and a body that decodes
    to JSON ([Some]) or does not ([None]). *)
Inductive provider_reply :=
| NoResponse
| Responded (status : Z) (body : option pyval).

Record World := {
  w_db : DB;
  w_net : nat → float → float → provider_reply;  (* reply to the n-th request *)
  w_sent : list (float * float);                 (* requests sent so far *)
  w_clock : nat → Z;                             (* n-th reading of the UTC clock *)
  w_ticks : nat                                  (* readings taken so far *)
}.

Definition M (A : Type) : Type := World → result A * World.

Definition ret {A} (a : A) : M A := fun w => (Ok a, w).

Definition bind {A B} (m : M A) (k : A → M B) : M B :=
  fun w => match m w with
           | (Ok a, w') => k a w'
           | (Raise e, w') => (Raise e, w')
           end.

Definition raise {A} (e : exn) : M A := fun w => (Raise e, w).

Definition lift {A} (r : result A) : M A := fun w => (r, w).

(** [try: body / except Exception as e: handler e] *)
Definition try_except {A} (body : M A) (handler : exn → M A) : M A :=
  fun w => match body w with
           | (Ok a, w') => (Ok a, w')
           | (Raise e, w') => handler e w'
           end.

Declare Scope monad_scope.
Delimit Scope monad_scope with monad.
Notation "x <- m ;; k" := (bind m (fun x => k))
  (at level 100, m at next level, right associativity) : monad_scope.
Notation "m ;;; k" := (bind m (fun _ => k))
  (at level 100, right associativity) : monad_scope.
Local Open Scope monad_scope.

Declare Scope result_scope.
Delimit Scope result_scope with res.
Notation "x <- m ;; k" := (rbind m (fun x => k))
  (at level 100, m at next level, right associativity) : result_scope.

(** The three ways the world changes. *)
Definition with_db (db : DB) (w : World) : World :=
  {| w_db := db; w_net := w_net w; w_sent := w_sent w;
     w_clock := w_clock w; w_ticks := w_ticks w |}.

Definition ticked (w : World) : World :=
  {| w_db := w_db w; w_net := w_net w; w_sent := w_sent w;
     w_clock := w_clock w; w_ticks := S (w_ticks w) |}.

Definition after_request (latitude longitude : float) (w : World) : World :=
  {| w_db := w_db w; w_net := w_net w;
     w_sent := w_sent w ++ [(latitude, longitude)];
     w_clock := w_clock w; w_ticks := w_ticks w |}.

Definition get_db : M DB := fun w => (Ok (w_db w), w).

Definition put_db (db : DB) : M unit := fun w => (Ok tt, with_db db w).

(** [datetime.now(timezone.utc)] *)
Definition now : M datetime := fun w =>
  (Ok (aware_utc (w_clock w (w_ticks w))), ticked w).

(** [await client.get(OPEN_METEO_URL, params=...)] *)
Definition client_get (latitude longitude : float) : M (Z * option pyval) := fun w =>
  match w_net w (length (w_sent w)) latitude longitude with
  | NoResponse => (Raise TransportError, after_request latitude longitude w)
  | Responded status body => (Ok (status, body), after_request latitude longitude w)
  end.

Fixpoint for_each {A} (l : list A) (body : A → M unit) : M unit :=
  match l with
  | [] => ret tt
  | x :: l' => body x ;;; for_each l' body
  end.

(** ** database.py *)

Definition insert_city (c : City) (db : DB) : DB :=
  {| tbl_cities := tbl_cities db ++ [c]; tbl_weather_data := tbl_weather_data db |}.

Definition insert_weather (r : WeatherData) (db : DB) : DB :=
  {| tbl_cities := tbl_cities db; tbl_weather_data := tbl_weather_data db ++ [r] |}.

Definition add_city (name : string) (latitude longitude : float) : M bool :=
  try_except
    (db <- get_db ;;
     existing_city <- lift (one_or_none (select_city_by_name db name)) ;;
     match existing_city with
     | Some _ => ret false
     | None =>
         created <- now ;;
         put_db (insert_city
                   {| c_id := next_id (c_id <$> tbl_cities db);
                      c_name := name;
                      c_latitude := latitude;
                      c_longitude := longitude;
                      c_is_active := true;
                      c_created_at := to_column created |} db) ;;;
         ret true
     end)
    (fun _ => ret false).

(** One element of the list [get_all_cities] returns: the dict
    [{"name": ..., "latitude": ..., "longitude": ...}]. *)
Record city_entry := {
  ce_name : string;
  ce_latitude : float;
  ce_longitude : float
}.

Definition get_all_cities : M (list city_entry) :=
  db <- get_db ;;
  ret ((fun c => {| ce_name := c_name c; ce_latitude := c_latitude c;
                    ce_longitude := c_longitude c |})
         <$> List.filter c_is_active (tbl_cities db)).

Definition save_weather_data (city_id : Z) (weather_data : gmap string pyval) : M unit :=
  try_except
    (stamp <- now ;;
     db <- get_db ;;
     recorded <- now ;;
     put_db (insert_weather
               {| wd_id := next_id (wd_id <$> tbl_weather_data db);
                  wd_city_id := city_id;
                  wd_timestamp := to_column stamp;
                  wd_temperature := dict_get weather_data "temperature";
                  wd_wind_speed := dict_get weather_data "wind_speed";
                  wd_pressure := dict_get weather_data "pressure";
                  wd_humidity := dict_get weather_data "humidity";
                  wd_precipitation := dict_get weather_data "precipitation";
                  wd_recorded_at := to_column recorded |} db))
    (fun _ => ret tt).

(** [min(items, key=...)]: the first item whose key is smallest; the key is
    computed for every item, the first included. [ValueError] on no item. *)
Fixpoint min_loop {A} (key : A → result Z) (l : list A) (best : A) (kbest : Z) : result A :=
  match l with
  | [] => Ok best
  | y :: l' =>
      rbind (key y) (fun ky =>
        if ky <? kbest then min_loop key l' y ky else min_loop key l' best kbest)
  end.

Definition py_min {A} (key : A → result Z) (l : list A) : result A :=
  match l with
  | [] => Raise ValueError
  | x :: l' => rbind (key x) (fun kx => min_loop key l' x kx)
  end.

(** The literal [field_mapping] of [get_weather_by_city_and_time], in the
    order it is written. *)
Definition field_items (w : WeatherData) : list (string * pyval) :=
  [ ("temperature", wd_temperature w);
    ("humidity", wd_humidity w);
    ("wind_speed", wd_wind_speed w);
    ("precipitation", wd_precipitation w);
    ("pressure", wd_pressure w) ].

Definition field_mapping (w : WeatherData) : gmap string pyval :=
  list_to_map (field_items w).

(** [abs((w.timestamp - target_time).total_seconds())].  [total_seconds] is
    the microsecond count divided by 10^6 and rounded to binary64; on
    differences shorter than a day two distinct counts never round to the same
    number, so the keys are compared as exact microsecond counts. *)
Definition distance_key (target_time : datetime) (w : WeatherData) : result Z :=
  rbind (datetime_sub (from_column (wd_timestamp w)) target_time) (fun d => Ok (Z.abs d)).

(** The three [where] clauses of the day query. *)
Definition in_day (city_id : Z) (start_of_day end_of_day : datetime) (w : WeatherData) : bool :=
  (wd_city_id w =? city_id)
  && (to_column start_of_day <=? wd_timestamp w)
  && (wd_timestamp w <? to_column end_of_day).

(** The five [where] clauses of the coordinate query. *)
Definition in_box (latitude longitude : float) (c : City) : bool :=
  PrimFloat.leb (latitude - 0.1)%float (c_latitude c)
  && PrimFloat.leb (c_latitude c) (latitude + 0.1)%float
  && PrimFloat.leb (longitude - 0.1)%float (c_longitude c)
  && PrimFloat.leb (c_longitude c) (longitude + 0.1)%float
  && c_is_active c.

Definition newer_first (a b : WeatherData) : Prop :=
  wd_timestamp b ≤ wd_timestamp a.

#[local] Instance newer_first_dec a b : Decision (newer_first a b) :=
  Z_le_dec (wd_timestamp b) (wd_timestamp a).

(** [.where(city_id == id).order_by(timestamp.desc()).limit(1)] *)
Definition latest_rows (db : DB) (city_id : Z) : list WeatherData :=
  take 1 (merge_sort newer_first
            (List.filter (fun w => wd_city_id w =? city_id) (tbl_weather_data db))).

Section queries.
Context `{DatetimeLib}.

(** Lines 112-134: the response dict for the chosen row. *)
Definition build_response (city_name : string) (closest_weather : WeatherData)
    (params : option (list string)) : gmap string pyval :=
  let response : gmap string pyval :=
    <["timestamp" := PStr (isoformat (from_column (wd_timestamp closest_weather)))]>
      (<["city" := PStr city_name]> ∅) in
  match params with
  | None =>
      foldl (fun (response : gmap string pyval) '(key, value) =>
               if is_not_None value then <[key := value]> response else response)
            response (field_items closest_weather)
  | Some params =>
      foldl (fun (response : gmap string pyval) param =>
               match field_mapping closest_weather !! param with
               | Some value =>
                   if is_not_None value then <[param := value]> response else response
               | None => response
               end)
            response params
  end.

Definition get_weather_by_city_and_time (db : DB) (city_name time_str : string)
    (params : option (list string)) : result (option (gmap string pyval)) :=
  try_except_pure
    (city <- one_or_none (select_city_by_name db city_name) ;;
     match city with
     | None => Ok None
     | Some city =>
         target_time <- fromisoformat time_str ;;
         let start_of_day := replace_midnight target_time in
         let end_of_day := add_days start_of_day 1 in
         let weather :=
           List.filter (in_day (c_id city) start_of_day end_of_day)
                       (tbl_weather_data db) in
         match weather with
         | [] => Ok None
         | _ =>
             closest_weather <- py_min (distance_key target_time) weather ;;
             Ok (Some (build_response city_name closest_weather params))
         end
     end)%res
    (fun _ => Ok None).

Definition get_current_weather_by_coords (db : DB) (latitude longitude : float)
    : result (option (gmap string pyval)) :=
  try_except_pure
    (city <- one_or_none (List.filter (in_box latitude longitude) (tbl_cities db)) ;;
     match city with
     | None => Ok None
     | Some city =>
         weather <- one_or_none (latest_rows db (c_id city)) ;;
         match weather with
         | None => Ok None
         | Some weather =>
             Ok (Some (<["city" := PStr (c_name city)]>
                      (<["temperature" := wd_temperature weather]>
                      (<["wind_speed" := wd_wind_speed weather]>
                      (<["pressure" := wd_pressure weather]>
                      (<["timestamp" :=
                           PStr (isoformat (from_column (wd_timestamp weather)))]>
                       ∅))))))
         end
     end)%res
    (fun _ => Ok None).
End queries.

(** ** weather_api.py *)

(** [response.raise_for_status()] raises unless the status is 2xx. *)
Definition is_success (status : Z) : bool := (200 <=? status) && (status <=? 299).

(** The exceptions the clause [except httpx.HTTPError] takes. *)
Definition is_httpx_HTTPError (e : exn) : bool :=
  match e with
  | TransportError | HTTPStatusError _ => true
  | _ => false
  end.

Definition fetch_weather_data (latitude longitude : float) : M (option (gmap string pyval)) :=
  try_except
    (response <- client_get latitude longitude ;;
     (if is_success (fst response) then ret tt
      else raise (HTTPStatusError (fst response))) ;;;
     data <- lift (match snd response with
                   | Some d => Ok d
                   | None => Raise JSONDecodeError
                   end) ;;
     current_data <- lift (py_get_default data "current" (PDict ∅)) ;;
     temperature <- lift (py_get current_data "temperature_2m") ;;
     wind_speed <- lift (py_get current_data "wind_speed_10m") ;;
     pressure <- lift (py_get current_data "surface_pressure") ;;
     humidity <- lift (py_get current_data "relative_humidity_2m") ;;
     precipitation <- lift (py_get current_data "precipitation") ;;
     ret (Some (<["temperature" := temperature]>
               (<["wind_speed" := wind_speed]>
               (<["pressure" := pressure]>
               (<["humidity" := humidity]>
               (<["precipitation" := precipitation]> ∅)))))))
    (fun e => if is_httpx_HTTPError e then ret None else ret None).

(** ** main.py *)

(** [if weather_data:] on an [Optional[Dict]] *)
Definition opt_truthy (weather_data : option (gmap string pyval)) : bool :=
  match weather_data with
  | Some d => dict_truthy d
  | None => false
  end.

(** The block both the scheduler and the registration handler run on a
    fetched snapshot: look the city row up by name and, if it is there, save
    the snapshot under its id. *)
Definition store_snapshot (name : string) (weather_data : option (gmap string pyval)) : M unit :=
  match weather_data with
  | Some d =>
      if dict_truthy d then
        db <- get_db ;;
        city_obj <- lift (one_or_none (select_city_by_name db name)) ;;
        match city_obj with
        | Some c => save_weather_data (c_id c) d
        | None => ret tt
        end
      else ret tt
  | None => ret tt
  end.

(** The body of [for city in cities]. *)
Definition refresh_city (city : city_entry) : M unit :=
  weather_data <- fetch_weather_data (ce_latitude city) (ce_longitude city) ;;
  store_snapshot (ce_name city) weather_data.

(** One turn of the [while True] loop, up to the sleep. *)
Definition update_cycle : M unit :=
  try_except
    (cities <- get_all_cities ;;
     for_each cities refresh_city ;;;
     _ <- now ;;
     ret tt)
    (fun _ => ret tt).

(** [await asyncio.sleep(900)]: the clock moves on by itself. *)
Definition sleep : M unit := ret tt.

(** The loop, cancelled after [cycles] turns. *)
Fixpoint update_weather_periodically (cycles : nat) : M unit :=
  match cycles with
  | O => ret tt
  | S n => update_cycle ;;; sleep ;;; update_weather_periodically n
  end.

Definition add_city_endpoint (name : string) (latitude longitude : float)
    : M (gmap string pyval) :=
  success <- add_city name latitude longitude ;;
  if negb success then
    raise (HTTPException 400 "City already exists or failed to add")
  else
    weather_data <- fetch_weather_data latitude longitude ;;
    store_snapshot name weather_data ;;;
    ret {[ "message" := PStr ("City " +:+ name +:+ " added successfully") ]}.

Section handlers.
Context `{DatetimeLib}.

Definition get_weather_by_time (city_name time : string) (params : option (list string))
    : M (gmap string pyval) :=
  db <- get_db ;;
  weather_data <- lift (get_weather_by_city_and_time db city_name time params) ;;
  match weather_data with
  | Some d =>
      if dict_truthy d then ret d
      else raise (HTTPException 404 "Weather data not found")
  | None => raise (HTTPException 404 "Weather data not found")
  end.
End handlers.

(** What the framework sends for a handler's outcome: the body with 200, the
    status of an [HTTPException], 500 for any other exception. *)
Inductive http_response (A : Type) :=
| Response (body : A)
| ErrorResponse (status : Z).
Arguments Response {A} body.
Arguments ErrorResponse {A} status.

Definition respond {A} (handler : M A) (w : World) : http_response A * World :=
  match handler w with
  | (Ok a, w') => (Response a, w')
  | (Raise (HTTPException status _), w') => (ErrorResponse status, w')
  | (Raise _, w') => (ErrorResponse 500, w')
  end.

(** ** A concrete [DatetimeLib] for running the handlers

    [Iso.parse] reads the fragment [YYYY-MM-DD], [YYYY-MM-DDTHH:MM:SS],
    optionally followed by [.ffffff] and by an offset [+HH:MM] or [-HH:MM],
    which every version of [datetime.fromisoformat] accepts, and raises
    [ValueError] on anything else; [Iso.print] writes what [isoformat]
    writes.  The days of the proleptic Gregorian calendar are counted from
    1970-01-01. *)
Module Iso.

Definition digit (c : ascii) : option Z :=
  let n := Z.of_nat (nat_of_ascii c) in
  if (48 <=? n) && (n <=? 57) then Some (n - 48) else None.

(** Exactly [n] decimal digits at the head of [s]. *)
Fixpoint number (n : nat) (s : string) (acc : Z) : option (Z * string) :=
  match n with
  | O => Some (acc, s)
  | S n' =>
      match s with
      | String c s' =>
          match digit c with
          | Some d => number n' s' (10 * acc + d)
          | None => None
          end
      | EmptyString => None
      end
  end.

(** The character [c] at the head of [s]. *)
Definition expect (c : ascii) (s : string) : option string :=
  match s with
  | String c' s' => if bool_decide (c = c') then Some s' else None
  | EmptyString => None
  end.

Definition is_leap (y : Z) : bool :=
  (y mod 4 =? 0) && (negb (y mod 100 =? 0) || (y mod 400 =? 0)).

Definition days_in_month (y m : Z) : Z :=
  if m =? 2 then (if is_leap y then 29 else 28)
  else if (m =? 4) || (m =? 6) || (m =? 9) || (m =? 11) then 30
  else 31.

Definition days_from_civil (y m d : Z) : Z :=
  let y := if m <=? 2 then y - 1 else y in
  let era := y / 400 in
  let yoe := y - era * 400 in
  let doy := (153 * (if 2 <? m then m - 3 else m + 9) + 2) / 5 + d - 1 in
  let doe := yoe * 365 + yoe / 4 - yoe / 100 + doy in
  era * 146097 + doe - 719468.

Definition civil_from_days (z : Z) : Z * Z * Z :=
  let z := z + 719468 in
  let era := z / 146097 in
  let doe := z - era * 146097 in
  let yoe := (doe - doe / 1460 + doe / 36524 - doe / 146096) / 365 in
  let doy := doe - (365 * yoe + yoe / 4 - yoe / 100) in
  let mp := (5 * doy + 2) / 153 in
  let d := doy - (153 * mp + 2) / 5 + 1 in
  let m := if mp <? 10 then mp + 3 else mp - 9 in
  let y := yoe + era * 400 in
  (if m <=? 2 then y + 1 else y, m, d).

Definition parse_date (s : string) : option (Z * string) :=
  '(y, s) ← number 4 s 0;
  s ← expect "-" s;
  '(m, s) ← number 2 s 0;
  s ← expect "-" s;
  '(d, s) ← number 2 s 0;
  if (1 <=? y) && (1 <=? m) && (m <=? 12) && (1 <=? d) && (d <=? days_in_month y m)
  then Some (days_from_civil y m d * DAY_US, s)
  else None.

Definition parse_clock (s : string) : option (Z * string) :=
  '(h, s) ← number 2 s 0;
  s ← expect ":" s;
  '(mi, s) ← number 2 s 0;
  s ← expect ":" s;
  '(sec, s) ← number 2 s 0;
  if (h <? 24) && (mi <? 60) && (sec <? 60)
  then Some (((h * 60 + mi) * 60 + sec) * SECOND_US, s)
  else None.

Definition parse_fraction (s : string) : option (Z * string) :=
  match s with
  | String "." s' => number 6 s' 0
  | _ => Some (0, s)
  end.

Definition parse_offset (s : string) : option (option Z) :=
  match s with
  | EmptyString => Some None
  | String sign s' =>
      if bool_decide (sign = "+"%char) || bool_decide (sign = "-"%char) then
        '(h, s') ← number 2 s' 0;
        s' ← expect ":" s';
        '(mi, s') ← number 2 s' 0;
        match s' with
        | EmptyString =>
            if (h <? 24) && (mi <? 60) then
              let off := (h * 60 + mi) * 60 * SECOND_US in
              Some (Some (if bool_decide (sign = "-"%char) then - off else off))
            else None
        | _ => None
        end
      else None
  end.

Definition parse_opt (s : string) : option datetime :=
  '(day, s) ← parse_date s;
  match s with
  | EmptyString => Some (naive day)
  | String sep s =>
      if bool_decide (sep = "T"%char) then
        '(clock, s) ← parse_clock s;
        '(us, s) ← parse_fraction s;
        off ← parse_offset s;
        Some {| wall := day + clock + us; utcoffset := off |}
      else None
  end.

Definition parse (s : string) : result datetime :=
  match parse_opt s with
  | Some dt => Ok dt
  | None => Raise ValueError
  end.

(** [z] written with [n] digits, zero padded. *)
Fixpoint padded (n : nat) (z : Z) (tail : string) : string :=
  match n with
  | O => tail
  | S n' => padded n' (z / 10) (String (ascii_of_nat (48 + Z.to_nat (z mod 10))) tail)
  end.

Definition print_offset (off : option Z) : string :=
  match off with
  | None => ""
  | Some o =>
      let a := Z.abs o / (60 * SECOND_US) in
      (if o <? 0 then "-" else "+") +:+ padded 2 (a / 60) (":" +:+ padded 2 (a mod 60) "")
  end.

Definition print (dt : datetime) : string :=
  let '(y, m, d) := civil_from_days (wall dt / DAY_US) in
  let rest := wall dt mod DAY_US in
  let secs := rest / SECOND_US in
  let us := rest mod SECOND_US in
  padded 4 y ("-" +:+ padded 2 m ("-" +:+ padded 2 d ("T" +:+
    padded 2 (secs / 3600) (":" +:+ padded 2 (secs / 60 mod 60) (":" +:+
    padded 2 (secs mod 60)
      ((if us =? 0 then "" else "." +:+ padded 6 us "") +:+ print_offset (utcoffset dt))))))).

#[global] Instance lib : DatetimeLib :=
  {| fromisoformat := parse; isoformat := print |}.

End Iso.

(** * Vocabulary of the statements *)

(** The unique constraint on [cities.name]. *)
Definition names_unique (db : DB) : Prop := NoDup (c_name <$> tbl_cities db).

(** Two wall-clock readings fall on the same calendar day. *)
Definition same_day (a b : Z) : Prop := a / DAY_US = b / DAY_US.

Definition canonical_fields : list string :=
  ["temperature"; "humidity"; "wind_speed"; "precipitation"; "pressure"].

(** What the response may carry under [k]: the chosen row's value, when [k]
    names a field and the value is not [None]. *)
Definition reported (x : WeatherData) (k : string) : option pyval :=
  match field_mapping x !! k with
  | Some v => if is_not_None v then Some v else None
  | None => None
  end.

Definition requested (params : option (list string)) (k : string) : bool :=
  match params with
  | None => true
  | Some l => bool_decide (k ∈ l)
  end.

(** [x] is the row the day query settles on for this city and timestamp. *)
Definition chosen `{DatetimeLib} (db : DB) (city_name time_str : string) (x : WeatherData) : Prop :=
  ∃ c target_time,
    select_city_by_name db city_name = [c]
    ∧ fromisoformat time_str = Ok target_time
    ∧ py_min (distance_key target_time)
        (List.filter (in_day (c_id c) (replace_midnight target_time)
                        (add_days (replace_midnight target_time) 1))
           (tbl_weather_data db)) = Ok x.

(** The rows of one city in storage order. *)
Definition rows_of (db : DB) (city_id : Z) : list WeatherData :=
  List.filter (fun w => wd_city_id w =? city_id) (tbl_weather_data db).

(** The row [add_city] inserts in the world [w]. *)
Definition new_city (w : World) (name : string) (latitude longitude : float) : City :=
  {| c_id := next_id (c_id <$> tbl_cities (w_db w));
     c_name := name;
     c_latitude := latitude;
     c_longitude := longitude;
     c_is_active := true;
     c_created_at := w_clock w (w_ticks w) |}.

(** Canonical field and the provider's name for it. *)
Definition provider_keys : list (string * string) :=
  [ ("temperature", "temperature_2m");
    ("wind_speed", "wind_speed_10m");
    ("pressure", "surface_pressure");
    ("humidity", "relative_humidity_2m");
    ("precipitation", "precipitation") ].

(** The dict built from the [current] object of a response. *)
Definition snapshot_of (current_data : gmap string pyval) : gmap string pyval :=
  <["temperature" := dict_get current_data "temperature_2m"]>
  (<["wind_speed" := dict_get current_data "wind_speed_10m"]>
  (<["pressure" := dict_get current_data "surface_pressure"]>
  (<["humidity" := dict_get current_data "relative_humidity_2m"]>
  (<["precipitation" := dict_get current_data "precipitation"]> ∅)))).

(** What [fetch_weather_data] makes of a reply. *)
Definition decode_reply (reply : provider_reply) : option (gmap string pyval) :=
  match reply with
  | Responded status (Some (PDict data)) =>
      if is_success status then
        match default (PDict ∅) (data !! "current") with
        | PDict current_data => Some (snapshot_of current_data)
        | _ => None
        end
      else None
  | _ => None
  end.

(** The row [save_weather_data] inserts in the world [w]. *)
Definition new_row (w : World) (city_id : Z) (weather_data : gmap string pyval)
    : WeatherData :=
  {| wd_id := next_id (wd_id <$> tbl_weather_data (w_db w));
     wd_city_id := city_id;
     wd_timestamp := w_clock w (w_ticks w);
     wd_temperature := dict_get weather_data "temperature";
     wd_wind_speed := dict_get weather_data "wind_speed";
     wd_pressure := dict_get weather_data "pressure";
     wd_humidity := dict_get weather_data "humidity";
     wd_precipitation := dict_get weather_data "precipitation";
     wd_recorded_at := w_clock w (S (w_ticks w)) |}.

(** The row holds the snapshot's five fields for the city [city_id]. *)
Definition records (row : WeatherData) (city_id : Z) (d : gmap string pyval) : Prop :=
  wd_city_id row = city_id
  ∧ ∀ f, f ∈ canonical_fields → field_mapping row !! f = Some (dict_get d f).

Definition entry_of (c : City) : city_entry :=
  {| ce_name := c_name c; ce_latitude := c_latitude c; ce_longitude := c_longitude c |}.

Definition coords_of (c : City) : float * float := (c_latitude c, c_longitude c).

(** A store for the examples: two cities 0.05 degrees apart, and three
    readings for the first on 2024-03-05, at 08:00, 12:00 and 18:00. *)
Module Sample.

Definition oslo : City :=
  {| c_id := 1; c_name := "Oslo"; c_latitude := 59.91; c_longitude := 10.75;
     c_is_active := true; c_created_at := 1709500000000000 |}.

Definition nesodden : City :=
  {| c_id := 2; c_name := "Nesodden"; c_latitude := 59.86; c_longitude := 10.70;
     c_is_active := true; c_created_at := 1709500000000000 |}.

(** 2024-03-05T00:00:00 *)
Definition day : Z := 1709596800000000.

Definition at_hour (h : Z) : Z := day + h * 3600 * SECOND_US.

Definition reading (id h : Z) (temperature : float) : WeatherData :=
  {| wd_id := id; wd_city_id := 1; wd_timestamp := at_hour h;
     wd_temperature := PNum temperature; wd_wind_speed := PNum 3.5;
     wd_pressure := PNum 1013.0; wd_humidity := PNum 80.0;
     wd_precipitation := PNum 0.0; wd_recorded_at := at_hour h |}.

Definition db : DB :=
  {| tbl_cities := [oslo];
     tbl_weather_data := [reading 1 8 1.5; reading 2 12 4.0; reading 3 18 2.0] |}.

Definition db_two_cities : DB :=
  {| tbl_cities := [oslo; nesodden];
     tbl_weather_data :=
       [reading 1 8 1.5;
        {| wd_id := 2; wd_city_id := 2; wd_timestamp := at_hour 9;
           wd_temperature := PNum 2.0; wd_wind_speed := PNum 1.0;
           wd_pressure := PNum 1012.0; wd_humidity := PNone;
           wd_precipitation := PNone; wd_recorded_at := at_hour 9 |}] |}.

End Sample.

(** Worlds for the examples. *)
Module Scenario.

(** A well-formed response with temperature and wind speed only. *)
Definition partial_body : pyval :=
  PDict {[ "current" := PDict {[ "temperature_2m" := PNum 4.0;
                                 "wind_speed_10m" := PNum 3.5 ]} ]}.

(** Nothing stored, provider unreachable. *)
Definition offline : World :=
  {| w_db := {| tbl_cities := []; tbl_weather_data := [] |};
     w_net := fun _ _ _ => NoResponse;
     w_sent := [];
     w_clock := fun n => Sample.at_hour 12 + Z.of_nat n;
     w_ticks := 0 |}.

(** Oslo and Nesodden stored; the first request of the provider times
    out, every later one is answered. *)
Definition first_fails : World :=
  {| w_db := {| tbl_cities := [Sample.oslo; Sample.nesodden]; tbl_weather_data := [] |};
     w_net := fun n _ _ => match n with
                           | O => NoResponse
                           | S _ => Responded 200 (Some partial_body)
                           end;
     w_sent := [];
     w_clock := fun n => Sample.at_hour 12 + Z.of_nat n;
     w_ticks := 0 |}.

(** The readings of [Sample.db] in a world. *)
Definition stocked : World :=
  {| w_db := Sample.db;
     w_net := fun _ _ _ => NoResponse;
     w_sent := [];
     w_clock := fun n => Sample.at_hour 19 + Z.of_nat n;
     w_ticks := 0 |}.

End Scenario.

(** * More of the code *)

(** ** weather_api.py: [fetch_hourly_forecast]

    The loop of this function measures and indexes whatever the provider put
    under the five keys, so it can meet two exceptions [exn] has no name
    for.  Its outcomes are therefore stated over [py_exception], which adds
    them to [exn]. *)

Inductive py_exception :=
| Std (e : exn)
| KeyError      (* [d[i]] on a dict that has no key [i] *)
| IndexError.   (* [l[i]] past the end *)

Inductive outcome (A : Type) :=
| Returned (a : A)
| Raised (e : py_exception).
Arguments Returned {A} a.
Arguments Raised {A} e.

Definition obind {A B} (o : outcome A) (k : A → outcome B) : outcome B :=
  match o with Returned a => k a | Raised e => Raised e end.

Definition of_result {A} (r : result A) : outcome A :=
  match r with Ok a => Returned a | Raise e => Raised (Std e) end.

Declare Scope outcome_scope.
Delimit Scope outcome_scope with out.
Notation "x <- m ;; k" := (obind m (fun x => k))
  (at level 100, m at next level, right associativity) : outcome_scope.

(** [len(v)] *)
Definition py_len (v : pyval) : outcome nat :=
  match v with
  | PList l => Returned (length l)
  | PStr s => Returned (String.length s)
  | PDict d => Returned (size d)
  | _ => Raised (Std TypeError)
  end.

(** [v[i]] for an index [i >= 0].  A decoded JSON object has string keys
    only, so an integer never is one of them. *)
Definition py_index (v : pyval) (i : nat) : outcome pyval :=
  match v with
  | PList l =>
      match l !! i with
      | Some x => Returned x
      | None => Raised IndexError
      end
  | PStr s =>
      match String.get i s with
      | Some c => Returned (PStr (String c EmptyString))
      | None => Raised IndexError
      end
  | PDict _ => Raised KeyError
  | _ => Raised (Std TypeError)
  end.

Fixpoint characters (s : string) : list pyval :=
  match s with
  | EmptyString => []
  | String c s' => PStr (String c EmptyString) :: characters s'
  end.

(** The items [for ... in v] goes through: the elements of a list, the
    characters of a string, the keys of a dict.  A [gmap] does not keep the
    order in which the members of a JSON object were written, so the keys
    come in the map's own order. *)
Definition py_iter (v : pyval) : outcome (list pyval) :=
  match v with
  | PList l => Returned l
  | PStr s => Returned (characters s)
  | PDict d => Returned (PStr <$> (map_to_list d).*1)
  | _ => Raised (Std TypeError)
  end.

(** [hourly.get(key, [])[i] if i < len(hourly.get(key, [])) else None] *)
Definition series_at (hourly : gmap string pyval) (key : string) (i : nat) : outcome pyval :=
  (n <- py_len (default (PList []) (hourly !! key)) ;;
   if (i <? n)%nat then py_index (default (PList []) (hourly !! key)) i
   else Returned PNone)%out.

(** The dict appended for the [i]-th timestamp. *)
Definition forecast_entry (hourly : gmap string pyval) (i : nat) (timestamp : pyval)
    : outcome pyval :=
  (temperature <- series_at hourly "temperature_2m" i ;;
   wind_speed <- series_at hourly "wind_speed_10m" i ;;
   pressure <- series_at hourly "surface_pressure" i ;;
   humidity <- series_at hourly "relative_humidity_2m" i ;;
   precipitation <- series_at hourly "precipitation" i ;;
   Returned (PDict (<["timestamp" := timestamp]>
                   (<["temperature" := temperature]>
                   (<["wind_speed" := wind_speed]>
                   (<["pressure" := pressure]>
                   (<["humidity" := humidity]>
                   (<["precipitation" := precipitation]> ∅))))))))%out.

(** [for i, timestamp in enumerate(timestamps): forecast.append(...)], from
    index [i] on. *)
Fixpoint forecast_from (hourly : gmap string pyval) (i : nat) (timestamps : list pyval)
    : outcome (list pyval) :=
  match timestamps with
  | [] => Returned []
  | timestamp :: rest =>
      (entry <- forecast_entry hourly i timestamp ;;
       entries <- forecast_from hourly (S i) rest ;;
       Returned (entry :: entries))%out
  end.

(** The [try] block of [fetch_hourly_forecast] on the reply to its request. *)
Definition hourly_of_reply (reply : provider_reply) : outcome (option (gmap string pyval)) :=
  (response <- match reply with
               | NoResponse => Raised (Std TransportError)
               | Responded status body => Returned (status, body)
               end ;;
   _ <- (if is_success (fst response) then Returned tt
         else Raised (Std (HTTPStatusError (fst response)))) ;;
   data <- match snd response with
           | Some d => Returned d
           | None => Raised (Std JSONDecodeError)
           end ;;
   hourly <- of_result (py_get_default data "hourly" (PDict ∅)) ;;
   timestamps <- of_result (py_get_default hourly "time" (PList [])) ;;
   items <- py_iter timestamps ;;
   forecast <- match hourly with
               | PDict h => forecast_from h 0 items
               | _ => Raised (Std AttributeError)
               end ;;
   Returned (Some {[ "hourly_forecast" := PList forecast ]}))%out.

(** The exceptions the clause [except httpx.HTTPError] takes. *)
Definition is_httpx_error (e : py_exception) : bool :=
  match e with
  | Std e => is_httpx_HTTPError e
  | _ => false
  end.

Definition fetch_hourly_forecast (latitude longitude : float) (w : World)
    : outcome (option (gmap string pyval)) * World :=
  (match hourly_of_reply (w_net w (length (w_sent w)) latitude longitude) with
   | Returned r => Returned r
   | Raised e => if is_httpx_error e then Returned None else Returned None
   end,
   after_request latitude longitude w).

(** ** main.py: the other handlers *)



Definition get_current_weather `{DatetimeLib} (latitude longitude : float)
    : M (gmap string pyval) :=
  weather_data <- fetch_weather_data latitude longitude ;;
  match weather_data with
  | Some d =>
      if dict_truthy d then
        stamp <- now ;;
        ret (<["temperature" := dict_get d "temperature"]>
            (<["wind_speed" := dict_get d "wind_speed"]>
            (<["pressure" := dict_get d "pressure"]>
            (<["timestamp" := PStr (isoformat stamp)]> ∅))))
      else raise (HTTPException 500 "Failed to fetch weather data")
  | None => raise (HTTPException 500 "Failed to fetch weather data")
  end.

(** ** Vocabulary of the further statements *)

(** The rows the day query picks from, for a city id and a naive reading. *)
Definition rows_in_day (db : DB) (city_id T : Z) : list WeatherData :=
  List.filter (in_day city_id (replace_midnight (naive T))
                 (add_days (replace_midnight (naive T)) 1))
    (tbl_weather_data db).

(** Both tables of [db'] start with those of [db]. *)
Definition extends (db db' : DB) : Prop :=
  tbl_cities db `prefix_of` tbl_cities db'
  ∧ tbl_weather_data db `prefix_of` tbl_weather_data db'.

(** An action that only ever appends rows, and leaves the provider and the
    clock as they are. *)
Definition appends {A} (m : M A) : Prop :=
  ∀ w r w', m w = (r, w') →
    extends (w_db w) (w_db w') ∧ w_net w' = w_net w ∧ w_clock w' = w_clock w.


(** The five series the loop reads. *)
Definition series_keys : list string :=
  ["temperature_2m"; "wind_speed_10m"; "surface_pressure";
   "relative_humidity_2m"; "precipitation"].

(** A series of the hourly object that is left out or is a list. *)
Definition list_or_missing (hourly : gmap string pyval) (key : string) : Prop :=
  hourly !! key = None ∨ ∃ l, hourly !! key = Some (PList l).

(** The [i]-th value of such a series, [None] past its end. *)
Definition series_value (hourly : gmap string pyval) (key : string) (i : nat) : pyval :=
  match hourly !! key with
  | Some (PList l) => default PNone (l !! i)
  | _ => PNone
  end.

(** The entry of the forecast for the [i]-th timestamp. *)
Definition expected_entry (hourly : gmap string pyval) (i : nat) (timestamp : pyval) : pyval :=
  PDict (<["timestamp" := timestamp]>
        (<["temperature" := series_value hourly "temperature_2m" i]>
        (<["wind_speed" := series_value hourly "wind_speed_10m" i]>
        (<["pressure" := series_value hourly "surface_pressure" i]>
        (<["humidity" := series_value hourly "relative_humidity_2m" i]>
        (<["precipitation" := series_value hourly "precipitation" i]> ∅)))))).

(** * Properties *)

Lemma Sample_db_names_unique : names_unique Sample.db.
Proof. unfold names_unique. simpl. apply NoDup_singleton. Defined.

Lemma Scenario_first_fails_names_unique : names_unique (w_db Scenario.first_fails).
Proof. apply (bool_decide_unpack _). vm_compute. exact I. Defined.

(** ** Rows, names and [one_or_none] *)

Lemma name_is_true name c : name_is name c = true ↔ c_name c = name.
Proof. unfold name_is. by rewrite bool_decide_eq_true. Qed.

Lemma filter_name_absent name (l : list City) :
  name ∉ c_name <$> l → List.filter (name_is name) l = [].
Proof.
  induction l as [|c l IH]; simpl; [done|].
  rewrite not_elem_of_cons. intros [Hne Hl].
  destruct (name_is name c) eqn:E; [|by apply IH].
  apply name_is_true in E. congruence.
Qed.

Lemma filter_name_unique c (l : list City) :
  NoDup (c_name <$> l) → c ∈ l → List.filter (name_is (c_name c)) l = [c].
Proof.
  induction l as [|x l IH]; simpl; intros Hnd Hin.
  - by apply elem_of_nil in Hin.
  - apply NoDup_cons in Hnd as [Hx Hnd].
    apply elem_of_cons in Hin as [->|Hin].
    + replace (name_is (c_name x) x) with true
        by (symmetry; by apply name_is_true).
      by rewrite filter_name_absent.
    + destruct (name_is (c_name c) x) eqn:E.
      * apply name_is_true in E. exfalso. apply Hx. rewrite E.
        apply list_elem_of_fmap. eauto.
      * by apply IH.
Qed.

Lemma select_city_unique db c :
  names_unique db → c ∈ tbl_cities db →
  select_city_by_name db (c_name c) = [c].
Proof. intros. by apply filter_name_unique. Qed.

Lemma one_or_none_many {A} (x y : A) l :
  one_or_none (x :: y :: l) = Raise MultipleResultsFound.
Proof. done. Qed.

(** ** [min] with a key *)

Lemma min_loop_total {A} (key : A → result Z) (k : A → Z) l :
  (∀ y, y ∈ l → key y = Ok (k y)) →
  ∀ best, ∃ x, min_loop key l best (k best) = Ok x
               ∧ (x = best ∨ x ∈ l)
               ∧ k x ≤ k best
               ∧ ∀ y, y ∈ l → k x ≤ k y.
Proof.
  induction l as [|y l IH]; intros Hkey best; simpl.
  - exists best. split_and!; [done|by left|lia|].
    intros y Hy. by apply elem_of_nil in Hy.
  - rewrite (Hkey y) by left. simpl.
    assert (Hl : ∀ z, z ∈ l → key z = Ok (k z)) by (intros; apply Hkey; by right).
    destruct (Z.ltb_spec (k y) (k best)) as [Hlt|Hge].
    + destruct (IH Hl y) as (x & Hx & Hin & Hle & Hall).
      exists x. split_and!; [done| |lia|].
      * right. destruct Hin as [->|?]; [left|by right].
      * intros z [->|Hz]%elem_of_cons; [done|by apply Hall].
    + destruct (IH Hl best) as (x & Hx & Hin & Hle & Hall).
      exists x. split_and!; [done| |done|].
      * destruct Hin as [->|?]; [by left|right; by right].
      * intros z [->|Hz]%elem_of_cons; [lia|by apply Hall].
Qed.

Lemma py_min_total {A} (key : A → result Z) (k : A → Z) l :
  l ≠ [] →
  (∀ y, y ∈ l → key y = Ok (k y)) →
  ∃ x, py_min key l = Ok x ∧ x ∈ l ∧ ∀ y, y ∈ l → k x ≤ k y.
Proof.
  destruct l as [|x0 l]; [done|]. intros _ Hkey. simpl.
  rewrite (Hkey x0) by left. simpl.
  destruct (min_loop_total key k l) with (best := x0) as (x & Hx & Hin & Hle & Hall).
  { intros. apply Hkey. by right. }
  exists x. split_and!; [done| |].
  - destruct Hin as [->|?]; [left|by right].
  - intros y [->|Hy]%elem_of_cons; [done|by apply Hall].
Qed.

Lemma py_min_raises {A} (key : A → result Z) x l e :
  key x = Raise e → py_min key (x :: l) = Raise e.
Proof. intros E. simpl. by rewrite E. Qed.

(** ** The calendar day of a reading *)

Lemma DAY_US_pos : 0 < DAY_US.
Proof. done. Qed.

Lemma day_window (T t : Z) :
  (T - T mod DAY_US <=? t) && (t <? T - T mod DAY_US + 1 * DAY_US) = true
  ↔ same_day T t.
Proof.
  unfold same_day. pose proof DAY_US_pos as Hpos.
  rewrite andb_true_iff, Z.leb_le, Z.ltb_lt.
  pose proof (Z.div_mod T DAY_US ltac:(lia)) as HT.
  pose proof (Z.mod_pos_bound T DAY_US Hpos) as HTb.
  pose proof (Z.div_mod t DAY_US ltac:(lia)) as Ht.
  pose proof (Z.mod_pos_bound t DAY_US Hpos) as Htb.
  split.
  - intros [Hlo Hhi]. nia.
  - intros Heq. rewrite Heq in HT. lia.
Qed.

Lemma in_day_naive cid T w :
  in_day cid (replace_midnight (naive T)) (add_days (replace_midnight (naive T)) 1) w = true
  ↔ wd_city_id w = cid ∧ same_day T (wd_timestamp w).
Proof.
  unfold in_day, replace_midnight, add_days, to_column. simpl.
  rewrite <- andb_assoc, andb_true_iff, Z.eqb_eq, day_window. done.
Qed.

(** ** The day query *)

Section day_query.
Context `{DatetimeLib}.

(** The handler never lets an exception out. *)
Lemma get_weather_by_city_and_time_returns db city_name time_str params :
  ∃ r, get_weather_by_city_and_time db city_name time_str params = Ok r.
Proof.
  unfold get_weather_by_city_and_time, try_except_pure.
  match goal with |- ∃ r, match ?b with _ => _ end = _ => destruct b end; eauto.
Qed.

(** Whatever record comes back was built from the row [min] chose among
    the rows of the day. *)
Lemma get_weather_by_city_and_time_inv db city_name time_str params r :
  get_weather_by_city_and_time db city_name time_str params = Ok (Some r) →
  ∃ c target_time x,
    select_city_by_name db city_name = [c]
    ∧ fromisoformat time_str = Ok target_time
    ∧ py_min (distance_key target_time)
        (List.filter (in_day (c_id c) (replace_midnight target_time)
                        (add_days (replace_midnight target_time) 1))
           (tbl_weather_data db)) = Ok x
    ∧ r = build_response city_name x params.
Proof.
  unfold get_weather_by_city_and_time, try_except_pure, rbind.
  destruct (select_city_by_name db city_name) as [|c [|c' l]] eqn:Hsel;
    simpl; [done| |done].
  destruct (fromisoformat time_str) as [target_time|] eqn:Hparse; [|done].
  destruct (List.filter _ (tbl_weather_data db)) as [|w0 ws] eqn:Hrows; [done|].
  destruct (py_min _ (w0 :: ws)) as [x|] eqn:Hmin; [|done].
  intros [= <-]. exists c, target_time, x. rewrite Hrows. done.
Qed.

Lemma distance_key_naive T w :
  distance_key (naive T) w = Ok (Z.abs (wd_timestamp w - T)).
Proof. done. Qed.

Lemma distance_key_aware T off w :
  distance_key {| wall := T; utcoffset := Some off |} w = Raise TypeError.
Proof. done. Qed.

(** A timestamp that carries an offset never finds anything: with no row in
    its day the query returns [None], and with one the first key raises. *)
Lemma aware_timestamp_not_found db city_name time_str T off params :
  fromisoformat time_str = Ok {| wall := T; utcoffset := Some off |} →
  get_weather_by_city_and_time db city_name time_str params = Ok None.
Proof.
  intros Hparse. unfold get_weather_by_city_and_time, try_except_pure, rbind.
  destruct (select_city_by_name db city_name) as [|c [|c' l]]; simpl; [done| |done].
  rewrite Hparse.
  destruct (List.filter _ (tbl_weather_data db)) as [|w0 ws]; [done|].
  by rewrite (py_min_raises _ w0 ws TypeError).
Qed.
End day_query.



Example query_13h_returns_12h :
  get_weather_by_city_and_time Sample.db "Oslo" "2024-03-05T13:00:00" None
  = Ok (Some (build_response "Oslo" (Sample.reading 2 12 4.0) None))
  ∧ build_response "Oslo" (Sample.reading 2 12 4.0) None !! "timestamp"
    = Some (PStr "2024-03-05T12:00:00").
Proof. split; vm_compute; reflexivity. Qed.


(** ** The response dict *)

Lemma is_not_None_true v : is_not_None v = true ↔ v ≠ PNone.
Proof. destruct v; simpl; split; congruence. Qed.

Lemma field_items_keys x : (field_items x).*1 = canonical_fields.
Proof. done. Qed.

Lemma canonical_fields_NoDup : NoDup canonical_fields.
Proof. apply (bool_decide_unpack _). by vm_compute. Qed.

Lemma field_mapping_is_Some x k :
  is_Some (field_mapping x !! k) ↔ k ∈ canonical_fields.
Proof.
  unfold field_mapping. rewrite <- (field_items_keys x).
  destruct (list_to_map (field_items x) !! k) as [v|] eqn:E.
  - split; [intros _|by eauto].
    apply elem_of_list_to_map_2 in E. apply list_elem_of_fmap. by exists (k, v).
  - apply not_elem_of_list_to_map in E. split; [by intros [? ?]|done].
Qed.

Lemma field_mapping_not_base x k :
  k = "city" ∨ k = "timestamp" → field_mapping x !! k = None.
Proof. by intros [->| ->]. Qed.

Lemma foldl_items_lookup (its : list (string * pyval)) (r : gmap string pyval) k :
  NoDup its.*1 →
  foldl (fun (response : gmap string pyval) '(key, value) =>
           if is_not_None value then <[key := value]> response else response)
        r its !! k
  = match (list_to_map its : gmap string pyval) !! k with
    | Some v => if is_not_None v then Some v else r !! k
    | None => r !! k
    end.
Proof.
  revert r. induction its as [|[p v] its IH]; intros r Hnd; simpl; [done|].
  apply NoDup_cons in Hnd as [Hp Hnd]. rewrite IH by done.
  destruct (decide (k = p)) as [->|Hne].
  - rewrite lookup_insert_eq.
    rewrite not_elem_of_list_to_map_1 by done.
    destruct (is_not_None v); [by rewrite lookup_insert_eq|done].
  - rewrite lookup_insert_ne by done.
    destruct (is_not_None v); [by rewrite lookup_insert_ne|done].
Qed.

Lemma foldl_params_lookup x (l : list string) (r : gmap string pyval) k :
  foldl (fun (response : gmap string pyval) param =>
           match field_mapping x !! param with
           | Some value =>
               if is_not_None value then <[param := value]> response else response
           | None => response
           end)
        r l !! k
  = match reported x k with
    | Some v => if bool_decide (k ∈ l) then Some v else r !! k
    | None => r !! k
    end.
Proof.
  revert r. induction l as [|p l IH]; intros r; cbn [foldl].
  - destruct (reported x k); [|done].
    rewrite bool_decide_eq_false_2; [done|]. apply not_elem_of_nil.
  - rewrite IH. unfold reported.
    destruct (decide (k = p)) as [->|Hne].
    + destruct (field_mapping x !! p) as [v|]; [|done].
      destruct (is_not_None v); [|done].
      destruct (bool_decide (p ∈ l)) eqn:E.
      * rewrite bool_decide_eq_true_2; [done|by left].
      * rewrite bool_decide_eq_true_2; [|by left]. by rewrite lookup_insert_eq.
    + assert (Hk : bool_decide (k ∈ p :: l) = bool_decide (k ∈ l)).
      { apply bool_decide_ext. rewrite elem_of_cons.
        split; [intros [?|?]; done|by right]. }
      rewrite Hk.
      assert (Hr : ∀ v, <[p:=v]> r !! k = r !! k).
      { intros. by rewrite lookup_insert_ne. }
      destruct (field_mapping x !! p) as [v'|];
        [destruct (is_not_None v')|]; by rewrite ?Hr.
Qed.

Section response.
Context `{DatetimeLib}.

Lemma build_response_lookup city_name x params k :
  build_response city_name x params !! k
  = match reported x k with
    | Some v =>
        if requested params k then Some v
        else (<["timestamp" := PStr (isoformat (from_column (wd_timestamp x)))]>
                (<["city" := PStr city_name]> ∅) : gmap string pyval) !! k
    | None =>
        (<["timestamp" := PStr (isoformat (from_column (wd_timestamp x)))]>
           (<["city" := PStr city_name]> ∅) : gmap string pyval) !! k
    end.
Proof.
  unfold build_response. destruct params as [l|]; cbn [requested].
  - apply foldl_params_lookup.
  - rewrite foldl_items_lookup
      by (rewrite field_items_keys; apply canonical_fields_NoDup).
    unfold reported, field_mapping.
    destruct (list_to_map (field_items x) !! k) as [v|]; [|done].
    by destruct (is_not_None v).
Qed.

Lemma build_response_city city_name x params :
  build_response city_name x params !! "city" = Some (PStr city_name).
Proof.
  rewrite build_response_lookup. unfold reported.
  rewrite field_mapping_not_base by (by left).
  by rewrite lookup_insert_ne, lookup_insert_eq.
Qed.

Lemma build_response_timestamp city_name x params :
  build_response city_name x params !! "timestamp"
  = Some (PStr (isoformat (from_column (wd_timestamp x)))).
Proof.
  rewrite build_response_lookup. unfold reported.
  rewrite field_mapping_not_base by (by right).
  by rewrite lookup_insert_eq.
Qed.

Lemma build_response_field city_name x params k :
  k ≠ "city" → k ≠ "timestamp" →
  build_response city_name x params !! k
  = if requested params k then reported x k else None.
Proof.
  intros Hc Ht. rewrite build_response_lookup.
  rewrite !lookup_insert_ne, lookup_empty by done.
  destruct (reported x k), (requested params k); done.
Qed.
End response.

Lemma min_loop_elem {A} (key : A → result Z) l :
  ∀ best kbest x, min_loop key l best kbest = Ok x → x = best ∨ x ∈ l.
Proof.
  induction l as [|y l IH]; intros best kbest x; simpl.
  - intros [= ->]. by left.
  - destruct (key y) as [ky|]; simpl; [|done].
    destruct (ky <? kbest); intros Hx; apply IH in Hx as [->|?];
      first [by left | right; by left | right; by right].
Qed.

Lemma py_min_elem {A} (key : A → result Z) l x :
  py_min key l = Ok x → x ∈ l.
Proof.
  destruct l as [|x0 l]; simpl; [done|].
  destruct (key x0) as [k0|]; simpl; [|done].
  intros Hx. apply min_loop_elem in Hx as [->|?]; [left|by right].
Qed.

Section chosen_row.
Context `{DatetimeLib}.

Lemma chosen_stored db city_name time_str x :
  chosen db city_name time_str x → x ∈ tbl_weather_data db.
Proof.
  intros (c & T & _ & _ & Hmin). apply py_min_elem in Hmin.
  apply list_elem_of_In, filter_In in Hmin as [Hin _]. by apply list_elem_of_In.
Qed.

Lemma response_of_chosen db city_name time_str params r :
  get_weather_by_city_and_time db city_name time_str params = Ok (Some r) →
  ∃ x, chosen db city_name time_str x ∧ r = build_response city_name x params.
Proof.
  intros (c & T & x & ? & ? & ? & ->)%get_weather_by_city_and_time_inv.
  exists x. split; [|done]. by exists c, T.
Qed.

End chosen_row.

(** C7. With a field filter [l], a record that comes back carries the city
    name, the timestamp of the chosen observation [x] and, besides those two
    keys, exactly the names of [l] that are canonical fields with a value
    other than [None] on [x], each with that value; any other name in [l] is
    ignored. *)
Theorem C7_field_filter `{DatetimeLib} db city_name time_str (l : list string)
    (r : gmap string pyval) :
  get_weather_by_city_and_time db city_name time_str (Some l) = Ok (Some r) →
  ∃ x, chosen db city_name time_str x
       ∧ x ∈ tbl_weather_data db
       ∧ r !! "city" = Some (PStr city_name)
       ∧ r !! "timestamp" = Some (PStr (isoformat (from_column (wd_timestamp x))))
       ∧ ∀ k v, k ≠ "city" → k ≠ "timestamp" →
           (r !! k = Some v ↔
              k ∈ l ∧ k ∈ canonical_fields
              ∧ field_mapping x !! k = Some v ∧ v ≠ PNone).
Proof.
  intros (x & Hx & ->)%response_of_chosen.
  exists x. split_and!; [done|by eapply chosen_stored| | |].
  - apply build_response_city.
  - apply build_response_timestamp.
  - intros k v Hc Ht. rewrite build_response_field by done.
    cbn [requested]. unfold reported. case_bool_decide as Hin.
    + destruct (field_mapping x !! k) as [v'|] eqn:E.
      * destruct (is_not_None v') eqn:Hnn.
        -- apply is_not_None_true in Hnn. split.
           ++ intros [= <-]. split_and!; [done| |done|done].
              apply (field_mapping_is_Some x). by rewrite E.
           ++ by intros (_ & _ & [= ->] & _).
        -- split; [done|]. intros (_ & _ & [= ->] & Hv).
           apply is_not_None_true in Hv. congruence.
      * split; [done|]. by intros (_ & _ & ? & _).
    + split; [done|]. by intros (? & _).
Qed.

(** The filter ["temperature"] on a row with every field present yields
    [temperature] besides [city] and [timestamp], and nothing else. *)
Lemma C7_field_filter_witness :
  ∃ x, chosen Sample.db "Oslo" "2024-03-05T13:00:00" x
       ∧ x ∈ tbl_weather_data Sample.db
       ∧ ({[ "city" := PStr "Oslo"; "timestamp" := PStr "2024-03-05T12:00:00";
             "temperature" := PNum 4.0 ]} : gmap string pyval) !! "city"
         = Some (PStr "Oslo")
       ∧ ({[ "city" := PStr "Oslo"; "timestamp" := PStr "2024-03-05T12:00:00";
             "temperature" := PNum 4.0 ]} : gmap string pyval) !! "timestamp"
         = Some (PStr (isoformat (from_column (wd_timestamp x))))
       ∧ ∀ k v, k ≠ "city" → k ≠ "timestamp" →
           (({[ "city" := PStr "Oslo"; "timestamp" := PStr "2024-03-05T12:00:00";
                "temperature" := PNum 4.0 ]} : gmap string pyval) !! k = Some v ↔
              k ∈ ["temperature"] ∧ k ∈ canonical_fields
              ∧ field_mapping x !! k = Some v ∧ v ≠ PNone).
Proof.
  apply (C7_field_filter (H := Iso.lib) Sample.db "Oslo" "2024-03-05T13:00:00"
           ["temperature"]).
  vm_compute. reflexivity.
Defined.


(** ** The coordinate query *)

#[local] Instance newer_first_trans : Transitive newer_first.
Proof. unfold newer_first. intros a b c ??. lia. Qed.

#[local] Instance newer_first_total : Total newer_first.
Proof. unfold newer_first. intros a b. lia. Qed.

Lemma rows_of_elem db city_id y :
  y ∈ rows_of db city_id ↔ y ∈ tbl_weather_data db ∧ wd_city_id y = city_id.
Proof.
  unfold rows_of. by rewrite !list_elem_of_In, filter_In, Z.eqb_eq.
Qed.

Lemma latest_rows_none db city_id :
  rows_of db city_id = [] → latest_rows db city_id = [].
Proof.
  unfold latest_rows. fold (rows_of db city_id). intros ->.
  pose proof (merge_sort_Permutation newer_first (@nil WeatherData)) as Hp.
  apply Permutation_nil_r in Hp. by rewrite Hp.
Qed.

Lemma latest_rows_some db city_id :
  rows_of db city_id ≠ [] →
  ∃ x, latest_rows db city_id = [x]
       ∧ x ∈ rows_of db city_id
       ∧ ∀ y, y ∈ rows_of db city_id → wd_timestamp y ≤ wd_timestamp x.
Proof.
  unfold latest_rows. fold (rows_of db city_id). intros Hne.
  pose proof (merge_sort_Permutation newer_first (rows_of db city_id)) as Hp.
  pose proof (StronglySorted_merge_sort newer_first (rows_of db city_id)) as Hs.
  destruct (merge_sort newer_first (rows_of db city_id)) as [|x rest].
  - symmetry in Hp. apply Permutation_nil_r in Hp. done.
  - exists x. split_and!; [done| |].
    + rewrite <- Hp. left.
    + intros y Hy. rewrite <- Hp in Hy.
      apply StronglySorted_cons in Hs as [Hall _].
      apply elem_of_cons in Hy as [->|Hy]; [lia|].
      rewrite Forall_forall in Hall. by apply Hall.
Qed.

(** C3 (as amended). When two or more active cities lie in the box around
    the queried coordinates, [one_or_none] raises, the handler swallows the
    exception, and the lookup answers not-found. *)
Theorem C3_several_cities_in_box `{DatetimeLib} db latitude longitude :
  (2 ≤ length (List.filter (in_box latitude longitude) (tbl_cities db)))%nat →
  get_current_weather_by_coords db latitude longitude = Ok None.
Proof.
  unfold get_current_weather_by_coords.
  destruct (List.filter _ (tbl_cities db)) as [|c1 [|c2 l]]; simpl; [lia..|done].
Qed.

Lemma C3_several_cities_in_box_witness :
  get_current_weather_by_coords Sample.db_two_cities 59.9 10.72 = Ok None.
Proof.
  apply (C3_several_cities_in_box (H := Iso.lib) Sample.db_two_cities 59.9%float 10.72%float).
  vm_compute. done.
Defined.

(** C3 (counterexample). Oslo and Nesodden are both active, both within 0.1
    degrees of (59.9, 10.72), and both have a stored observation; the lookup
    returns no record for either. *)
Lemma C3_two_cities_not_found :
  (Sample.oslo ∈ tbl_cities Sample.db_two_cities
   ∧ Sample.nesodden ∈ tbl_cities Sample.db_two_cities
   ∧ in_box 59.9 10.72 Sample.oslo = true
   ∧ in_box 59.9 10.72 Sample.nesodden = true
   ∧ rows_of Sample.db_two_cities (c_id Sample.oslo) ≠ []
   ∧ rows_of Sample.db_two_cities (c_id Sample.nesodden) ≠ [])
  ∧ get_current_weather_by_coords Sample.db_two_cities 59.9 10.72 = Ok None.
Proof.
  split_and!; try reflexivity; try done.
  - apply list_elem_of_here.
  - apply list_elem_of_further, list_elem_of_here.
Qed.

(** C4. The lookup answers not-found when no active city lies in the box;
    when exactly one does, it answers not-found if that city has no
    observation, and otherwise the record of an observation of that city
    whose timestamp is the largest. *)
Theorem C4_coordinate_lookup `{DatetimeLib} db latitude longitude :
  ((∀ c, c ∈ tbl_cities db → in_box latitude longitude c = false) →
   get_current_weather_by_coords db latitude longitude = Ok None)
  ∧ (∀ c, List.filter (in_box latitude longitude) (tbl_cities db) = [c] →
       ((∀ y, y ∈ tbl_weather_data db → wd_city_id y ≠ c_id c) →
        get_current_weather_by_coords db latitude longitude = Ok None)
       ∧ (∀ y0, y0 ∈ tbl_weather_data db → wd_city_id y0 = c_id c →
          ∃ x, x ∈ tbl_weather_data db
               ∧ wd_city_id x = c_id c
               ∧ (∀ y, y ∈ tbl_weather_data db → wd_city_id y = c_id c →
                       wd_timestamp y ≤ wd_timestamp x)
               ∧ get_current_weather_by_coords db latitude longitude
                 = Ok (Some (<["city" := PStr (c_name c)]>
                            (<["temperature" := wd_temperature x]>
                            (<["wind_speed" := wd_wind_speed x]>
                            (<["pressure" := wd_pressure x]>
                            (<["timestamp" :=
                                 PStr (isoformat (from_column (wd_timestamp x)))]>
                             ∅)))))))).
Proof.
  split.
  - intros Hnone. unfold get_current_weather_by_coords.
    replace (List.filter (in_box latitude longitude) (tbl_cities db)) with (@nil City); [done|].
    symmetry. induction (tbl_cities db) as [|c l IH]; [done|]. simpl.
    rewrite (Hnone c) by left. apply IH. intros. apply Hnone. by right.
  - intros c Hc. unfold get_current_weather_by_coords. rewrite Hc. simpl. split.
    + intros Hno. rewrite latest_rows_none; [done|].
      destruct (rows_of db (c_id c)) as [|y l] eqn:E; [done|].
      assert (y ∈ rows_of db (c_id c)) as Hy by (rewrite E; left).
      apply rows_of_elem in Hy as [Hy1 Hy2]. by destruct (Hno y).
    + intros y0 Hy0 Hcity.
      destruct (latest_rows_some db (c_id c)) as (x & Hx & Hin & Hmax).
      { intros E. assert (y0 ∈ rows_of db (c_id c)) as Hy by (by apply rows_of_elem).
        rewrite E in Hy. by apply elem_of_nil in Hy. }
      apply rows_of_elem in Hin as [Hin1 Hin2].
      exists x. split_and!; [done|done| |].
      * intros y Hy1 Hy2. apply Hmax, rows_of_elem. done.
      * rewrite Hx. done.
Qed.

Example coordinate_lookup_latest :
  get_current_weather_by_coords Sample.db 59.9 10.72
  = Ok (Some {[ "city" := PStr "Oslo"; "temperature" := PNum 2.0;
                "wind_speed" := PNum 3.5; "pressure" := PNum 1013.0;
                "timestamp" := PStr "2024-03-05T18:00:00" ]})
  ∧ get_current_weather_by_coords Sample.db 59.9 10.9 = Ok None.
Proof. split; vm_compute; reflexivity. Qed.

(** ** Registration *)

Lemma add_city_run name latitude longitude w :
  add_city name latitude longitude w
  = match select_city_by_name (w_db w) name with
    | [] => (Ok true,
             with_db (insert_city (new_city w name latitude longitude) (w_db w)) (ticked w))
    | _ => (Ok false, w)
    end.
Proof.
  unfold add_city, try_except, bind, get_db, lift.
  by destruct (select_city_by_name (w_db w) name) as [|c [|c' l]].
Qed.

Lemma filter_name_present name (l : list City) :
  name ∈ c_name <$> l → List.filter (name_is name) l ≠ [].
Proof.
  intros (c & -> & Hc)%list_elem_of_fmap Hnil.
  assert (c ∈ List.filter (name_is (c_name c)) l) as Hin.
  { apply list_elem_of_In, filter_In. split; [by apply list_elem_of_In|].
    by apply name_is_true. }
  rewrite Hnil in Hin. by apply elem_of_nil in Hin.
Qed.


Lemma add_city_keeps_names_unique name latitude longitude w r w' :
  names_unique (w_db w) →
  add_city name latitude longitude w = (r, w') →
  names_unique (w_db w').
Proof.
  intros Hu. rewrite add_city_run.
  destruct (select_city_by_name (w_db w) name) as [|c l] eqn:E; intros [= <- <-]; [|done].
  unfold names_unique. simpl. rewrite fmap_app. simpl.
  apply NoDup_app. split_and!; [done| |apply NoDup_singleton].
  intros x Hx ->%list_elem_of_singleton.
  by apply filter_name_present in Hx.
Qed.


Lemma add_city_taken name latitude longitude w :
  select_city_by_name (w_db w) name ≠ [] →
  add_city name latitude longitude w = (Ok false, w).
Proof.
  intros Hsel. rewrite add_city_run.
  by destruct (select_city_by_name (w_db w) name).
Qed.


Example register_twice :
  (add_city "Oslo" 59.91 10.75 Scenario.offline).1 = Ok true
  ∧ (add_city "Oslo" 1.0 2.0 (add_city "Oslo" 59.91 10.75 Scenario.offline).2).1
    = Ok false
  ∧ c_name <$> tbl_cities
      (w_db (add_city "Oslo" 1.0 2.0 (add_city "Oslo" 59.91 10.75 Scenario.offline).2).2)
    = ["Oslo"].
Proof. split_and!; vm_compute; reflexivity. Qed.

(** ** The provider client *)

Lemma fetch_weather_data_run latitude longitude w :
  fetch_weather_data latitude longitude w
  = (Ok (decode_reply (w_net w (length (w_sent w)) latitude longitude)),
     after_request latitude longitude w).
Proof.
  unfold fetch_weather_data, try_except, bind, client_get, decode_reply.
  destruct (w_net w (length (w_sent w)) latitude longitude) as [|status body];
    simpl; [done|].
  destruct (is_success status); simpl; [|by destruct body as [[]|]].
  destruct body as [data|]; simpl; [|done].
  destruct data as [| | | | |data]; simpl; try done.
  by destruct (default (PDict ∅) (data !! "current")).
Qed.

Lemma snapshot_of_lookup current_data f k :
  (f, k) ∈ provider_keys → snapshot_of current_data !! f = Some (dict_get current_data k).
Proof.
  unfold provider_keys. rewrite !elem_of_cons, elem_of_nil.
  intros [[= -> ->]|[[= -> ->]|[[= -> ->]|[[= -> ->]|[[= -> ->]|[]]]]]]; done.
Qed.

Lemma snapshot_of_truthy current_data : dict_truthy (snapshot_of current_data) = true.
Proof.
  unfold dict_truthy, snapshot_of.
  destruct (size _) eqn:E; [|done].
  apply map_size_empty_iff in E. by apply insert_non_empty in E.
Qed.

Lemma decode_reply_truthy reply d : decode_reply reply = Some d → dict_truthy d = true.
Proof.
  unfold decode_reply. destruct reply as [|status [[| | | | |data]|]]; try done.
  destruct (is_success status); [|done].
  destruct (default _ _); try done. intros [= <-]. apply snapshot_of_truthy.
Qed.

(** C8. [fetch_weather_data] always returns: it yields [None] when there is
    no response, when the status is not a success, when the body is not
    JSON, when the decoded body is not an object, and when its [current]
    member is not an object; otherwise it yields a dict in which every
    canonical field holds the provider's value, and [None] when the provider
    left the field out. *)
Theorem C8_fetch_never_raises latitude longitude w :
  ∃ r, fetch_weather_data latitude longitude w = (Ok r, after_request latitude longitude w)
       ∧ (w_net w (length (w_sent w)) latitude longitude = NoResponse → r = None)
       ∧ (∀ status body,
            w_net w (length (w_sent w)) latitude longitude = Responded status body →
            (is_success status = false → r = None)
            ∧ (body = None → r = None)
            ∧ (∀ v, body = Some v → (∀ data, v ≠ PDict data) → r = None)
            ∧ (∀ data v, body = Some (PDict data) → data !! "current" = Some v →
                 (∀ current_data, v ≠ PDict current_data) → r = None)
            ∧ (∀ data current_data,
                 is_success status = true →
                 body = Some (PDict data) →
                 default (PDict ∅) (data !! "current") = PDict current_data →
                 ∃ d, r = Some d
                      ∧ ∀ f k, (f, k) ∈ provider_keys →
                          d !! f = Some (default PNone (current_data !! k))
                          ∧ (current_data !! k = None → d !! f = Some PNone))).
Proof.
  eexists. split; [apply fetch_weather_data_run|].
  split; [by intros ->|].
  intros status body ->. unfold decode_reply. split_and!.
  - intros ->. by destruct body as [[]|].
  - by intros ->.
  - intros v -> Hv. destruct v; try done. by destruct (Hv d).
  - intros data v -> Hcur Hv. rewrite Hcur. simpl.
    destruct (is_success status); [|done].
    destruct v; try done. by destruct (Hv d).
  - intros data current_data -> -> ->. eexists. split; [done|].
    intros f k Hfk. rewrite (snapshot_of_lookup _ f k Hfk). unfold dict_get.
    split; [done|]. by intros ->.
Qed.

(** A timed-out request gives [None]; an answer with two of the five fields
    gives a snapshot whose other three fields are [None]. *)
Example fetch_timeout_then_partial :
  (fetch_weather_data 59.91 10.75 Scenario.first_fails).1 = Ok None
  ∧ (fetch_weather_data 59.86 10.70
       (fetch_weather_data 59.91 10.75 Scenario.first_fails).2).1
    = Ok (Some {[ "temperature" := PNum 4.0; "wind_speed" := PNum 3.5;
                  "pressure" := PNone; "humidity" := PNone;
                  "precipitation" := PNone ]}).
Proof. split; vm_compute; reflexivity. Qed.

(** ** Saving a snapshot *)

Lemma save_weather_data_run city_id weather_data w :
  save_weather_data city_id weather_data w
  = (Ok tt, with_db (insert_weather (new_row w city_id weather_data) (w_db w))
              (ticked (ticked w))).
Proof. done. Qed.

Lemma field_mapping_new_row w city_id weather_data f :
  f ∈ canonical_fields →
  field_mapping (new_row w city_id weather_data) !! f = Some (dict_get weather_data f).
Proof.
  unfold canonical_fields. rewrite !elem_of_cons, elem_of_nil.
  intros [->|[->|[->|[->|[->|[]]]]]]; done.
Qed.


(** A snapshot without [precipitation], saved for Oslo and queried back on
    the day it was saved. *)
Example saved_without_precipitation :
  let w := {| w_db := {| tbl_cities := [Sample.oslo]; tbl_weather_data := [] |};
              w_net := fun _ _ _ => NoResponse; w_sent := [];
              w_clock := fun _ => Sample.at_hour 12; w_ticks := 0 |} in
  let snapshot : gmap string pyval :=
    {[ "temperature" := PNum 4.0; "wind_speed" := PNum 3.5;
       "pressure" := PNum 1013.0; "humidity" := PNum 80.0 ]} in
  get_weather_by_city_and_time (w_db (save_weather_data 1 snapshot w).2)
    "Oslo" "2024-03-05T13:00:00" None
  = Ok (Some {[ "city" := PStr "Oslo"; "timestamp" := PStr "2024-03-05T12:00:00";
                "temperature" := PNum 4.0; "wind_speed" := PNum 3.5;
                "pressure" := PNum 1013.0; "humidity" := PNum 80.0 ]}).
Proof. vm_compute. reflexivity. Qed.

(** ** Storing what a fetch returned *)


Lemma store_snapshot_some name c d w :
  select_city_by_name (w_db w) name = [c] →
  dict_truthy d = true →
  store_snapshot name (Some d) w
  = (Ok tt, with_db (insert_weather (new_row w (c_id c) d) (w_db w)) (ticked (ticked w))).
Proof.
  intros Hsel Ht. unfold store_snapshot, bind, get_db, lift.
  by rewrite Ht, Hsel.
Qed.

Lemma new_row_records w city_id d : records (new_row w city_id d) city_id d.
Proof. split; [done|]. intros. by apply field_mapping_new_row. Qed.





(** ** The refresh cycle *)

Lemma get_all_cities_run w :
  get_all_cities w
  = (Ok (entry_of <$> List.filter c_is_active (tbl_cities (w_db w))), w).
Proof. done. Qed.

Lemma refresh_city_run c w :
  names_unique (w_db w) → c ∈ tbl_cities (w_db w) →
  refresh_city (entry_of c) w
  = (Ok tt,
     let wr := after_request (c_latitude c) (c_longitude c) w in
     match decode_reply (w_net w (length (w_sent w)) (c_latitude c) (c_longitude c)) with
     | Some d => with_db (insert_weather (new_row wr (c_id c) d) (w_db w)) (ticked (ticked wr))
     | None => wr
     end).
Proof.
  intros Hu Hc. unfold refresh_city, bind. simpl.
  rewrite fetch_weather_data_run.
  destruct (decode_reply _) as [d|] eqn:Hd; [|done].
  rewrite (store_snapshot_some (c_name c) c d);
    [done|by apply select_city_unique|by eapply decode_reply_truthy].
Qed.

Lemma for_each_refresh cs :
  ∀ w, names_unique (w_db w) →
       (∀ c, c ∈ cs → c ∈ tbl_cities (w_db w)) →
       ∃ w' new,
         for_each (entry_of <$> cs) refresh_city w = (Ok tt, w')
         ∧ tbl_cities (w_db w') = tbl_cities (w_db w)
         ∧ w_net w' = w_net w
         ∧ w_sent w' = w_sent w ++ (coords_of <$> cs)
         ∧ tbl_weather_data (w_db w') = tbl_weather_data (w_db w) ++ new
         ∧ ∀ i c d,
             cs !! i = Some c →
             decode_reply (w_net w (length (w_sent w) + i)%nat
                             (c_latitude c) (c_longitude c)) = Some d →
             ∃ row, row ∈ new ∧ records row (c_id c) d.
Proof.
  induction cs as [|c cs IH]; intros w Hu Hin.
  - exists w, []. simpl. split_and!; try done; by rewrite ?app_nil_r.
  - cbn [fmap list_fmap for_each]. unfold bind at 1.
    rewrite refresh_city_run by (done || apply Hin; left).
    set (wr := after_request (c_latitude c) (c_longitude c) w).
    set (w1 := match decode_reply _ with Some d => _ | None => wr end).
    assert (Hw1 : tbl_cities (w_db w1) = tbl_cities (w_db w)
                  ∧ w_net w1 = w_net w
                  ∧ w_sent w1 = w_sent w ++ [coords_of c]
                  ∧ ∃ fresh, tbl_weather_data (w_db w1) = tbl_weather_data (w_db w) ++ fresh
                      ∧ ∀ d, decode_reply (w_net w (length (w_sent w))
                                             (c_latitude c) (c_longitude c)) = Some d →
                             ∃ row, row ∈ fresh ∧ records row (c_id c) d).
    { unfold w1. destruct (decode_reply _) as [d|]; simpl.
      - split_and!; [done..|]. eexists [_]. split; [done|].
        intros ? [= <-]. eexists. split; [left|apply new_row_records].
      - split_and!; [done..|]. exists []. split; [by rewrite app_nil_r|done]. }
    clearbody w1. destruct Hw1 as (Hc1 & Hn1 & Hs1 & fresh & Hr1 & Hfresh).
    destruct (IH w1) as (w' & new & Hrun & Hc' & Hn' & Hs' & Hr' & Hnew).
    { unfold names_unique. by rewrite Hc1. }
    { intros c' Hc'. rewrite Hc1. apply Hin. by right. }
    exists w', (fresh ++ new). rewrite Hrun.
    split_and!; [done|congruence|congruence| | |].
    + rewrite Hs', Hs1, <- app_assoc. done.
    + rewrite Hr', Hr1, <- app_assoc. done.
    + intros [|i] c' d Hi Hd.
      * injection Hi as <-. rewrite Nat.add_0_r in Hd.
        destruct (Hfresh d Hd) as (row & ? & ?). exists row.
        split; [apply elem_of_app; by left|done].
      * destruct (Hnew i c' d Hi) as (row & ? & ?).
        { rewrite Hn1, Hs1, length_app. simpl.
          by replace (length (w_sent w) + 1 + i)%nat with (length (w_sent w) + S i)%nat by lia. }
        exists row. split; [apply elem_of_app; by right|done].
Qed.



Example cycle_with_failed_first_fetch :
  (update_cycle Scenario.first_fails).1 = Ok tt
  ∧ w_sent (update_cycle Scenario.first_fails).2
    = [coords_of Sample.oslo; coords_of Sample.nesodden]
  ∧ tbl_weather_data (w_db (update_cycle Scenario.first_fails).2)
    = [ {| wd_id := 1; wd_city_id := 2; wd_timestamp := Sample.at_hour 12;
           wd_temperature := PNum 4.0; wd_wind_speed := PNum 3.5;
           wd_pressure := PNone; wd_humidity := PNone; wd_precipitation := PNone;
           wd_recorded_at := Sample.at_hour 12 + 1 |} ].
Proof. split_and!; vm_compute; reflexivity. Qed.

(** The loop goes on from cycle to cycle: it never ends in an exception and
    never touches the cities. *)
Lemma update_weather_periodically_returns cycles :
  ∀ w, names_unique (w_db w) →
       ∃ w', update_weather_periodically cycles w = (Ok tt, w')
             ∧ tbl_cities (w_db w') = tbl_cities (w_db w).
Proof.
  induction cycles as [|n IH]; intros w Hu; simpl.
  - by exists w.
  - destruct (for_each_refresh (List.filter c_is_active (tbl_cities (w_db w))) w Hu)
      as (w1 & new & Hrun & Hc & _).
    { intros c Hc. apply list_elem_of_In, filter_In in Hc as [Hc _].
      by apply list_elem_of_In. }
    destruct (IH (ticked w1)) as (w' & Hrun' & Hc').
    { unfold names_unique. simpl. by rewrite Hc. }
    exists w'. unfold bind at 1, update_cycle, try_except, bind.
    rewrite get_all_cities_run, Hrun. simpl.
    unfold bind, sleep, ret. rewrite Hrun'. split; [done|]. by rewrite Hc'.
Qed.

(** * Further properties *)

(** ** The day query: ties, empty days, filters *)

Lemma min_loop_first {A} (key : A → result Z) (k : A → Z) l :
  (∀ y, y ∈ l → key y = Ok (k y)) →
  ∀ best x, min_loop key l best (k best) = Ok x →
    (x = best ∧ ∀ y, y ∈ l → k best ≤ k y)
    ∨ (∃ l1 l2, l = l1 ++ x :: l2
                ∧ k x < k best
                ∧ (∀ y, y ∈ l1 → k x < k y)
                ∧ (∀ y, y ∈ l2 → k x ≤ k y)).
Proof.
  induction l as [|y l IH]; intros Hkey best x; simpl.
  - intros [= ->]. left. split; [done|]. intros y Hy. by apply elem_of_nil in Hy.
  - rewrite (Hkey y) by left. simpl.
    assert (Hl : ∀ z, z ∈ l → key z = Ok (k z)) by (intros; apply Hkey; by right).
    destruct (Z.ltb_spec (k y) (k best)) as [Hlt|Hge]; intros Hx.
    + right. destruct (IH Hl y x Hx) as [[-> Hall]|(l1 & l2 & -> & Hxy & H1 & H2)].
      * exists [], l. split_and!; [done|done| |done].
        intros z Hz. by apply elem_of_nil in Hz.
      * exists (y :: l1), l2. split_and!; [done|lia| |done].
        intros z [->|Hz]%elem_of_cons; [done|by apply H1].
    + destruct (IH Hl best x Hx) as [[-> Hall]|(l1 & l2 & -> & Hxb & H1 & H2)].
      * left. split; [done|]. intros z [->|Hz]%elem_of_cons; [done|by apply Hall].
      * right. exists (y :: l1), l2. split_and!; [done|done| |done].
        intros z [->|Hz]%elem_of_cons; [lia|by apply H1].
Qed.

Lemma py_min_first {A} (key : A → result Z) (k : A → Z) l x :
  (∀ y, y ∈ l → key y = Ok (k y)) →
  py_min key l = Ok x →
  ∃ l1 l2, l = l1 ++ x :: l2
           ∧ (∀ y, y ∈ l1 → k x < k y)
           ∧ (∀ y, y ∈ l2 → k x ≤ k y).
Proof.
  destruct l as [|x0 l]; [done|]. intros Hkey. simpl.
  rewrite (Hkey x0) by left. simpl. intros Hx.
  assert (Hl : ∀ y, y ∈ l → key y = Ok (k y)) by (intros; apply Hkey; by right).
  destruct (min_loop_first key k l Hl x0 x Hx)
    as [[-> Hall]|(l1 & l2 & -> & Hlt & H1 & H2)].
  - exists [], l. split_and!; [done| |done]. intros z Hz. by apply elem_of_nil in Hz.
  - exists (x0 :: l1), l2. split_and!; [done| |done].
    intros z [->|Hz]%elem_of_cons; [done|by apply H1].
Qed.

Section day_query_more.
Context `{DatetimeLib}.

(** The query on a found city and a parsed timestamp, step by step. *)
Lemma get_weather_by_city_and_time_run db city_name time_str params c target_time :
  select_city_by_name db city_name = [c] →
  fromisoformat time_str = Ok target_time →
  get_weather_by_city_and_time db city_name time_str params
  = match List.filter (in_day (c_id c) (replace_midnight target_time)
                         (add_days (replace_midnight target_time) 1))
            (tbl_weather_data db) with
    | [] => Ok None
    | w0 :: ws =>
        match py_min (distance_key target_time) (w0 :: ws) with
        | Ok x => Ok (Some (build_response city_name x params))
        | Raise _ => Ok None
        end
    end.
Proof.
  intros Hsel Hparse. unfold get_weather_by_city_and_time, try_except_pure, rbind.
  rewrite Hsel. cbn [one_or_none]. rewrite Hparse.
  destruct (List.filter _ (tbl_weather_data db)) as [|w0 ws]; [done|].
  by destruct (py_min _ (w0 :: ws)).
Qed.

Lemma rows_in_day_elem db city_id T y :
  y ∈ rows_in_day db city_id T
  ↔ y ∈ tbl_weather_data db ∧ wd_city_id y = city_id ∧ same_day T (wd_timestamp y).
Proof.
  unfold rows_in_day. by rewrite !list_elem_of_In, filter_In, in_day_naive.
Qed.

Lemma build_response_truthy city_name x params :
  dict_truthy (build_response city_name x params) = true.
Proof.
  unfold dict_truthy. destruct (size _) eqn:E; [|done].
  apply map_size_empty_iff in E.
  pose proof (build_response_city city_name x params) as Hc.
  by rewrite E, lookup_empty in Hc.
Qed.
End day_query_more.

(** X1. Among the observations of the day, the one reported for an offset-less
    timestamp is strictly nearer than every one stored before it, and at
    least as near as every one stored after it: ties go to the row stored
    first. *)
Theorem nearest_ties_go_to_first `{DatetimeLib} db city_name time_str T params
    (r : gmap string pyval) :
  fromisoformat time_str = Ok (naive T) →
  get_weather_by_city_and_time db city_name time_str params = Ok (Some r) →
  ∃ c x before after,
    select_city_by_name db city_name = [c]
    ∧ rows_in_day db (c_id c) T = before ++ x :: after
    ∧ r = build_response city_name x params
    ∧ (∀ y, y ∈ before →
         Z.abs (wd_timestamp x - T) < Z.abs (wd_timestamp y - T))
    ∧ (∀ y, y ∈ after →
         Z.abs (wd_timestamp x - T) ≤ Z.abs (wd_timestamp y - T)).
Proof.
  intros Hparse (c & T' & x & Hsel & Hparse' & Hmin & ->)%get_weather_by_city_and_time_inv.
  rewrite Hparse in Hparse'. injection Hparse' as <-.
  fold (rows_in_day db (c_id c) T) in Hmin.
  destruct (py_min_first (distance_key (naive T))
              (fun w => Z.abs (wd_timestamp w - T))
              (rows_in_day db (c_id c) T) x) as (l1 & l2 & Hl & H1 & H2);
    [intros; apply distance_key_naive|done|].
  exists c, x, l1, l2. done.
Qed.

Lemma nearest_ties_go_to_first_witness :
  ∃ c x before after,
    select_city_by_name Sample.db "Oslo" = [c]
    ∧ rows_in_day Sample.db (c_id c) (Sample.at_hour 10) = before ++ x :: after
    ∧ build_response "Oslo" (Sample.reading 1 8 1.5) None
      = build_response "Oslo" x None
    ∧ (∀ y, y ∈ before →
         Z.abs (wd_timestamp x - Sample.at_hour 10)
         < Z.abs (wd_timestamp y - Sample.at_hour 10))
    ∧ (∀ y, y ∈ after →
         Z.abs (wd_timestamp x - Sample.at_hour 10)
         ≤ Z.abs (wd_timestamp y - Sample.at_hour 10)).
Proof.
  apply (nearest_ties_go_to_first (H := Iso.lib) Sample.db "Oslo"
           "2024-03-05T10:00:00" (Sample.at_hour 10) None).
  - reflexivity.
  - vm_compute. reflexivity.
Defined.

(** X2. For an existing city and an offset-less timestamp, the query answers
    not-found exactly when the city has no observation on the calendar day
    of the timestamp; the day runs from midnight, included, to the next
    midnight, excluded. *)
Theorem not_found_iff_empty_day `{DatetimeLib} db c time_str T params :
  names_unique db →
  c ∈ tbl_cities db →
  fromisoformat time_str = Ok (naive T) →
  (get_weather_by_city_and_time db (c_name c) time_str params = Ok None
   ↔ ∀ y, y ∈ tbl_weather_data db → wd_city_id y = c_id c →
          ¬ (T - T mod DAY_US ≤ wd_timestamp y < T - T mod DAY_US + DAY_US)).
Proof.
  intros Hu Hc Hparse.
  rewrite (get_weather_by_city_and_time_run db (c_name c) time_str params c (naive T))
    by (done || by apply select_city_unique).
  fold (rows_in_day db (c_id c) T).
  assert (Hwin : ∀ y, same_day T (wd_timestamp y)
                      ↔ T - T mod DAY_US ≤ wd_timestamp y < T - T mod DAY_US + DAY_US).
  { intros y. rewrite <- day_window, andb_true_iff, Z.leb_le, Z.ltb_lt. lia. }
  destruct (rows_in_day db (c_id c) T) as [|w0 ws] eqn:E.
  - split; [intros _|done]. intros y Hy Hcity Hin.
    assert (y ∈ rows_in_day db (c_id c) T) as Hy'
      by (apply rows_in_day_elem; split_and!; [done..|by apply Hwin]).
    rewrite E in Hy'. by apply elem_of_nil in Hy'.
  - destruct (py_min_total (distance_key (naive T))
                (fun w => Z.abs (wd_timestamp w - T)) (w0 :: ws)) as (x & -> & _);
      [done|intros; apply distance_key_naive|].
    split; [done|]. intros Hno. exfalso.
    assert (w0 ∈ rows_in_day db (c_id c) T) as (H1 & H2 & H3)%rows_in_day_elem
      by (rewrite E; left).
    apply (Hno w0 H1 H2). by apply Hwin.
Qed.

Lemma not_found_iff_empty_day_witness :
  get_weather_by_city_and_time Sample.db (c_name Sample.oslo) "2024-03-06T00:00:00" None
  = Ok None
  ↔ ∀ y, y ∈ tbl_weather_data Sample.db → wd_city_id y = c_id Sample.oslo →
         ¬ (Sample.at_hour 24 - Sample.at_hour 24 mod DAY_US ≤ wd_timestamp y
            < Sample.at_hour 24 - Sample.at_hour 24 mod DAY_US + DAY_US).
Proof.
  apply (not_found_iff_empty_day (H := Iso.lib) Sample.db Sample.oslo
           "2024-03-06T00:00:00" (Sample.at_hour 24) None).
  - exact Sample_db_names_unique.
  - apply list_elem_of_here.
  - reflexivity.
Defined.

Section filters.
Context `{DatetimeLib}.

Lemma get_weather_params_congr db city_name time_str p p' :
  (∀ x, build_response city_name x p = build_response city_name x p') →
  get_weather_by_city_and_time db city_name time_str p
  = get_weather_by_city_and_time db city_name time_str p'.
Proof.
  intros Hb. unfold get_weather_by_city_and_time, try_except_pure, rbind.
  destruct (one_or_none (select_city_by_name db city_name)) as [[c|]|]; [|done..].
  destruct (fromisoformat time_str) as [T|]; [|done].
  destruct (List.filter _ (tbl_weather_data db)) as [|w0 ws]; [done|].
  destruct (py_min _ (w0 :: ws)) as [x|]; [|done]. by rewrite Hb.
Qed.

Lemma reported_canonical x k v : reported x k = Some v → k ∈ canonical_fields.
Proof.
  unfold reported. intros Hr. apply (field_mapping_is_Some x).
  by destruct (field_mapping x !! k).
Qed.
End filters.

(** X3. The field filter acts as a set: two filters with the same names, in any
    order and with any repetition, give the same answer. *)
Theorem field_filter_is_a_set `{DatetimeLib} db city_name time_str (l l' : list string) :
  (∀ k, k ∈ l ↔ k ∈ l') →
  get_weather_by_city_and_time db city_name time_str (Some l)
  = get_weather_by_city_and_time db city_name time_str (Some l').
Proof.
  intros Hset. apply get_weather_params_congr. intros x. apply map_eq. intros k.
  rewrite !build_response_lookup. cbn [requested].
  by rewrite (bool_decide_ext _ _ (Hset k)).
Qed.

Lemma field_filter_is_a_set_witness :
  get_weather_by_city_and_time Sample.db "Oslo" "2024-03-05T13:00:00"
    (Some ["humidity"; "temperature"; "humidity"])
  = get_weather_by_city_and_time Sample.db "Oslo" "2024-03-05T13:00:00"
      (Some ["temperature"; "humidity"]).
Proof.
  apply (field_filter_is_a_set (H := Iso.lib) Sample.db "Oslo" "2024-03-05T13:00:00"
           ["humidity"; "temperature"; "humidity"] ["temperature"; "humidity"]).
  intros k. rewrite !elem_of_cons, !elem_of_nil. tauto.
Defined.

(** X4. A filter that lists the five canonical fields, with or without other
    names, gives the answer of a query without filter. *)
Theorem full_filter_is_no_filter `{DatetimeLib} db city_name time_str (l : list string) :
  (∀ k, k ∈ canonical_fields → k ∈ l) →
  get_weather_by_city_and_time db city_name time_str (Some l)
  = get_weather_by_city_and_time db city_name time_str None.
Proof.
  intros Hall. apply get_weather_params_congr. intros x. apply map_eq. intros k.
  rewrite !build_response_lookup. cbn [requested].
  destruct (reported x k) as [v|] eqn:Hr; [|done].
  rewrite bool_decide_eq_true_2; [done|].
  by eapply Hall, reported_canonical.
Qed.

Lemma full_filter_is_no_filter_witness :
  get_weather_by_city_and_time Sample.db "Oslo" "2024-03-05T13:00:00"
    (Some ("dew_point" :: canonical_fields))
  = get_weather_by_city_and_time Sample.db "Oslo" "2024-03-05T13:00:00" None.
Proof.
  apply (full_filter_is_no_filter (H := Iso.lib) Sample.db "Oslo" "2024-03-05T13:00:00"
           ("dew_point" :: canonical_fields)).
  intros k Hk. by right.
Defined.

(** X5. The handler of [GET /weather/{city}/{time}] answers 200 with the record
    of the query or 404, never another status, and leaves the world as it
    found it. *)
Theorem by_time_answers_200_or_404 `{DatetimeLib} w city_name time params :
  respond (get_weather_by_time city_name time params) w
  = (match get_weather_by_city_and_time (w_db w) city_name time params with
     | Ok (Some r) => Response r
     | _ => ErrorResponse 404
     end, w).
Proof.
  unfold respond, get_weather_by_time, bind, get_db, lift.
  destruct (get_weather_by_city_and_time (w_db w) city_name time params)
    as [[r|]|e] eqn:Hq; [|done|].
  - apply response_of_chosen in Hq as (x & _ & ->).
    by rewrite build_response_truthy.
  - destruct (get_weather_by_city_and_time_returns (w_db w) city_name time params)
      as [r Hr]. congruence.
Qed.

(** ** Saving, registering and reading back *)






(** X10. Registering a name that is already stored is answered with 400; no
    request goes to the provider and nothing in the world changes. *)
Theorem duplicate_registration_is_rejected w name latitude longitude :
  name ∈ c_name <$> tbl_cities (w_db w) →
  respond (add_city_endpoint name latitude longitude) w = (ErrorResponse 400, w).
Proof.
  intros Hname. unfold respond, add_city_endpoint, bind.
  rewrite add_city_taken; [done|]. by apply filter_name_present.
Qed.

Lemma duplicate_registration_is_rejected_witness :
  respond (add_city_endpoint "Oslo" 1.0 2.0) Scenario.stocked
  = (ErrorResponse 400, Scenario.stocked).
Proof.
  apply (duplicate_registration_is_rejected Scenario.stocked "Oslo" 1.0%float 2.0%float).
  simpl. apply list_elem_of_here.
Defined.








(** ** The live endpoint *)

(** X7. [POST /weather/current] never touches the store: it sends one request
    and answers 500 when the fetch yields nothing, and otherwise 200 with
    the temperature, wind speed and pressure of the snapshot ([None] where
    the snapshot has none), stamped with the clock; humidity and
    precipitation are not passed on. *)
Theorem current_weather_is_live `{DatetimeLib} w latitude longitude :
  respond (get_current_weather latitude longitude) w
  = match decode_reply (w_net w (length (w_sent w)) latitude longitude) with
    | Some d =>
        (Response (<["temperature" := dict_get d "temperature"]>
                  (<["wind_speed" := dict_get d "wind_speed"]>
                  (<["pressure" := dict_get d "pressure"]>
                  (<["timestamp" :=
                       PStr (isoformat (aware_utc (w_clock w (w_ticks w))))]> ∅)))),
         ticked (after_request latitude longitude w))
    | None => (ErrorResponse 500, after_request latitude longitude w)
    end
  ∧ w_db (respond (get_current_weather latitude longitude) w).2 = w_db w.
Proof.
  unfold respond, get_current_weather, bind. rewrite fetch_weather_data_run.
  destruct (decode_reply _) as [d|] eqn:Hd; [|done].
  by rewrite (decode_reply_truthy _ d Hd).
Qed.

Example current_weather_partial :
  (respond (get_current_weather 59.86 10.70)
     (after_request 0 0 Scenario.first_fails)).1
  = Response {[ "temperature" := PNum 4.0; "wind_speed" := PNum 3.5;
                "pressure" := PNone;
                "timestamp" := PStr "2024-03-05T12:00:00+00:00" ]}
  ∧ (respond (get_current_weather 59.86 10.70) Scenario.first_fails).1
    = ErrorResponse 500.
Proof. split; vm_compute; reflexivity. Qed.

(** X6. A timestamp that parses with a UTC offset is answered 404 by
    [GET /weather/{city}/{time}], for every city, store and filter. *)
Theorem offset_timestamp_is_answered_404 `{DatetimeLib} w city_name time_str T off params :
  fromisoformat time_str = Ok {| wall := T; utcoffset := Some off |} →
  respond (get_weather_by_time city_name time_str params) w = (ErrorResponse 404, w).
Proof.
  intros Hparse. unfold respond, get_weather_by_time, bind, get_db, lift.
  by rewrite (aware_timestamp_not_found _ _ _ T off _ Hparse).
Qed.

Lemma offset_timestamp_is_answered_404_witness :
  respond (get_weather_by_time "Oslo" "2024-03-05T12:00:00+01:00" None) Scenario.stocked
  = (ErrorResponse 404, Scenario.stocked).
Proof.
  apply (offset_timestamp_is_answered_404 (H := Iso.lib) Scenario.stocked "Oslo"
           "2024-03-05T12:00:00+01:00" (Sample.at_hour 12) 3600000000 None).
  reflexivity.
Defined.

(** X8. The timestamp [POST /weather/current] hands out carries the UTC offset;
    when [fromisoformat] reads it back as written, asking
    [GET /weather/{city}/{time}] for that very timestamp is answered 404,
    whatever is stored. *)
Theorem current_timestamp_is_not_queryable `{DatetimeLib} w latitude longitude
    (d : gmap string pyval) city_name params :
  decode_reply (w_net w (length (w_sent w)) latitude longitude) = Some d →
  fromisoformat (isoformat (aware_utc (w_clock w (w_ticks w))))
  = Ok (aware_utc (w_clock w (w_ticks w))) →
  ∃ (body : gmap string pyval) w' ts,
    respond (get_current_weather latitude longitude) w = (Response body, w')
    ∧ body !! "timestamp" = Some (PStr ts)
    ∧ respond (get_weather_by_time city_name ts params) w' = (ErrorResponse 404, w').
Proof.
  intros Hd Hround. unfold respond at 1, get_current_weather, bind.
  rewrite fetch_weather_data_run, Hd, (decode_reply_truthy _ d Hd).
  eexists _, _, (isoformat (aware_utc (w_clock w (w_ticks w)))).
  split_and!; [reflexivity|reflexivity|].
  unfold respond, get_weather_by_time, bind, get_db, lift.
  by rewrite (aware_timestamp_not_found _ _ _ _ 0 _ Hround).
Qed.

Lemma current_timestamp_is_not_queryable_witness :
  ∃ (body : gmap string pyval) w' ts,
    respond (get_current_weather 59.86 10.70) (after_request 0 0 Scenario.first_fails)
    = (Response body, w')
    ∧ body !! "timestamp" = Some (PStr ts)
    ∧ respond (get_weather_by_time "Oslo" ts None) w' = (ErrorResponse 404, w').
Proof.
  apply (current_timestamp_is_not_queryable (H := Iso.lib)
           (after_request 0 0 Scenario.first_fails) 59.86%float 10.70%float
           (snapshot_of {[ "temperature_2m" := PNum 4.0; "wind_speed_10m" := PNum 3.5 ]})
           "Oslo" None).
  - reflexivity.
  - vm_compute. reflexivity.
Defined.

(** ** What the writers never do *)

Lemma extends_refl db : extends db db.
Proof. by split. Qed.

Lemma extends_trans db1 db2 db3 : extends db1 db2 → extends db2 db3 → extends db1 db3.
Proof. intros [? ?] [? ?]. split; by etrans. Qed.

Lemma extends_insert_city c db : extends db (insert_city c db).
Proof. split; simpl; [by apply prefix_app_r|done]. Qed.

Lemma extends_insert_weather r db : extends db (insert_weather r db).
Proof. split; simpl; [done|by apply prefix_app_r]. Qed.

Lemma appends_ret {A} (a : A) : appends (ret a).
Proof. intros w r w' [= <- <-]. split; [apply extends_refl|done]. Qed.

Lemma appends_raise {A} e : appends (@raise A e).
Proof. intros w r w' [= <- <-]. split; [apply extends_refl|done]. Qed.

Lemma appends_lift {A} (x : result A) : appends (lift x).
Proof. intros w r w' [= <- <-]. split; [apply extends_refl|done]. Qed.

Lemma appends_get_db : appends get_db.
Proof. intros w r w' [= <- <-]. split; [apply extends_refl|done]. Qed.

Lemma appends_now : appends now.
Proof. intros w r w' [= <- <-]. split; [apply extends_refl|done]. Qed.

Lemma appends_bind {A B} (m : M A) (k : A → M B) :
  appends m → (∀ a, appends (k a)) → appends (bind m k).
Proof.
  intros Hm Hk w r w'. unfold bind.
  destruct (m w) as [[a|e] w1] eqn:E; intros Hrun.
  - destruct (Hm _ _ _ E) as (? & ? & ?), (Hk a _ _ _ Hrun) as (? & ? & ?).
    split_and!; [by eapply extends_trans|congruence..].
  - injection Hrun as <- <-. by eapply Hm.
Qed.

Lemma appends_try_except {A} (body : M A) (handler : exn → M A) :
  appends body → (∀ e, appends (handler e)) → appends (try_except body handler).
Proof.
  intros Hb Hh w r w'. unfold try_except.
  destruct (body w) as [[a|e] w1] eqn:E; intros Hrun.
  - injection Hrun as <- <-. by eapply Hb.
  - destruct (Hb _ _ _ E) as (? & ? & ?), (Hh e _ _ _ Hrun) as (? & ? & ?).
    split_and!; [by eapply extends_trans|congruence..].
Qed.

Lemma appends_add_city name latitude longitude : appends (add_city name latitude longitude).
Proof.
  intros w r w'. rewrite add_city_run.
  destruct (select_city_by_name (w_db w) name); intros [= <- <-];
    (split; [|done]); [apply extends_insert_city|apply extends_refl].
Qed.

Lemma appends_save_weather_data city_id d : appends (save_weather_data city_id d).
Proof.
  intros w r w'. rewrite save_weather_data_run. intros [= <- <-].
  split; [apply extends_insert_weather|done].
Qed.

Lemma appends_fetch_weather_data latitude longitude :
  appends (fetch_weather_data latitude longitude).
Proof.
  intros w r w'. rewrite fetch_weather_data_run. intros [= <- <-].
  split; [apply extends_refl|done].
Qed.

Lemma appends_store_snapshot name weather_data : appends (store_snapshot name weather_data).
Proof.
  unfold store_snapshot. destruct weather_data as [d|]; [|apply appends_ret].
  destruct (dict_truthy d); [|apply appends_ret].
  apply appends_bind; [apply appends_get_db|]. intros db.
  apply appends_bind; [apply appends_lift|]. intros [c|];
    [apply appends_save_weather_data|apply appends_ret].
Qed.

Lemma appends_refresh_city city : appends (refresh_city city).
Proof.
  apply appends_bind; [apply appends_fetch_weather_data|].
  intros. apply appends_store_snapshot.
Qed.

Lemma appends_for_each {A} (l : list A) (body : A → M unit) :
  (∀ x, appends (body x)) → appends (for_each l body).
Proof.
  intros Hb. induction l as [|x l IH]; simpl; [apply appends_ret|].
  apply appends_bind; [apply Hb|done].
Qed.

Lemma appends_update_cycle : appends update_cycle.
Proof.
  apply appends_try_except; [|intros; apply appends_ret].
  apply appends_bind; [apply appends_bind; [apply appends_get_db|intros; apply appends_ret]|].
  intros cities. apply appends_bind; [apply appends_for_each, appends_refresh_city|].
  intros _. apply appends_bind; [apply appends_now|intros; apply appends_ret].
Qed.

Lemma appends_update_weather_periodically cycles :
  appends (update_weather_periodically cycles).
Proof.
  induction cycles as [|n IH]; simpl; [apply appends_ret|].
  apply appends_bind; [apply appends_update_cycle|]. intros _.
  apply appends_bind; [apply appends_ret|done].
Qed.

Lemma appends_add_city_endpoint name latitude longitude :
  appends (add_city_endpoint name latitude longitude).
Proof.
  apply appends_bind; [apply appends_add_city|]. intros success.
  destruct (negb success); [apply appends_raise|].
  apply appends_bind; [apply appends_fetch_weather_data|]. intros wd.
  apply appends_bind; [apply appends_store_snapshot|intros; apply appends_ret].
Qed.

(** X14. Whatever the store, the provider and the outcome, the writers only
    append: after a registration, a save, a refresh cycle or any number of
    cycles, both tables start with the rows they had before, unchanged and
    in the same order. *)
Theorem rows_are_only_appended :
  (∀ name latitude longitude w,
     extends (w_db w) (w_db (add_city_endpoint name latitude longitude w).2))
  ∧ (∀ city_id (d : gmap string pyval) w,
       extends (w_db w) (w_db (save_weather_data city_id d w).2))
  ∧ (∀ cycles w, extends (w_db w) (w_db (update_weather_periodically cycles w).2)).
Proof.
  split_and!; intros.
  - destruct (add_city_endpoint name latitude longitude w) as [r w'] eqn:E.
    by eapply appends_add_city_endpoint.
  - destruct (save_weather_data city_id d w) as [r w'] eqn:E.
    by eapply appends_save_weather_data.
  - destruct (update_weather_periodically cycles w) as [r w'] eqn:E.
    by eapply appends_update_weather_periodically.
Qed.

Lemma update_cycle_returns w : (update_cycle w).1 = Ok tt.
Proof.
  unfold update_cycle, try_except.
  match goal with |- (match ?b with _ => _ end).1 = _ => destruct b as [[[]|e] w'] end;
    done.
Qed.

(** X15. The refresh loop never ends in an exception: whatever the store holds,
    duplicate names included, and whatever the provider sends, every cycle
    returns and the next one starts. *)
Theorem scheduler_never_raises cycles :
  ∀ w, (update_weather_periodically cycles w).1 = Ok tt.
Proof.
  induction cycles as [|n IH]; intros w; simpl; [done|].
  unfold bind at 1. pose proof (update_cycle_returns w) as Hc.
  destruct (update_cycle w) as [r w1]. simpl in Hc. subst r.
  unfold bind, sleep, ret. specialize (IH w1).
  by destruct (update_weather_periodically n w1) as [[[]|e] w2].
Qed.

Lemma store_snapshot_cities name weather_data w :
  tbl_cities (w_db (store_snapshot name weather_data w).2) = tbl_cities (w_db w).
Proof.
  unfold store_snapshot, bind, get_db, lift.
  destruct weather_data as [d|]; [|done]. destruct (dict_truthy d); [|done].
  by destruct (one_or_none (select_city_by_name (w_db w) name)) as [[c|]|].
Qed.

(** X16. The names of the stored cities stay unique through every registration
    request, accepted or refused, and through any number of refresh cycles. *)
Theorem names_stay_unique w :
  names_unique (w_db w) →
  (∀ name latitude longitude,
     names_unique (w_db (add_city_endpoint name latitude longitude w).2))
  ∧ (∀ cycles, names_unique (w_db (update_weather_periodically cycles w).2)).
Proof.
  intros Hu. split.
  - intros name latitude longitude. unfold add_city_endpoint, bind.
    destruct (add_city name latitude longitude w) as [[success|e] w1] eqn:E;
      [|by eapply add_city_keeps_names_unique].
    pose proof (add_city_keeps_names_unique _ _ _ _ _ _ Hu E) as Hu1.
    destruct (negb success); [done|].
    rewrite fetch_weather_data_run.
    pose proof (store_snapshot_cities name
                  (decode_reply (w_net w1 (length (w_sent w1)) latitude longitude))
                  (after_request latitude longitude w1)) as Hc.
    destruct (store_snapshot _ _ _) as [[[]|e] w2]; simpl in *;
      unfold names_unique; by rewrite Hc.
  - intros cycles.
    destruct (update_weather_periodically_returns cycles w Hu) as (w' & -> & Hc).
    unfold names_unique. simpl. by rewrite Hc.
Qed.

Lemma names_stay_unique_witness :
  (∀ name latitude longitude,
     names_unique (w_db (add_city_endpoint name latitude longitude
                           Scenario.first_fails).2))
  ∧ (∀ cycles,
       names_unique (w_db (update_weather_periodically cycles Scenario.first_fails).2)).
Proof.
  apply (names_stay_unique Scenario.first_fails).
  exact Scenario_first_fails_names_unique.
Defined.




(** ** The hourly forecast *)

Lemma series_at_list_or_missing hourly key i :
  list_or_missing hourly key →
  series_at hourly key i = Returned (series_value hourly key i).
Proof.
  unfold series_at, series_value. intros [->|[l ->]]; simpl; [done|].
  destruct (Nat.ltb_spec i (length l)) as [Hlt|Hge].
  - destruct (lookup_lt_is_Some_2 l i Hlt) as [x Hx]. by rewrite Hx.
  - by rewrite (lookup_ge_None_2 l i Hge).
Qed.

Lemma series_at_unsized hourly key i v :
  hourly !! key = Some v →
  (v = PNone ∨ (∃ b, v = PBool b) ∨ ∃ x, v = PNum x) →
  series_at hourly key i = Raised (Std TypeError).
Proof.
  unfold series_at. intros -> [->|[[b ->]|[x ->]]]; done.
Qed.

Lemma forecast_entry_list_or_missing hourly i timestamp :
  (∀ key, key ∈ series_keys → list_or_missing hourly key) →
  forecast_entry hourly i timestamp = Returned (expected_entry hourly i timestamp).
Proof.
  intros Hall. unfold forecast_entry.
  rewrite !series_at_list_or_missing; [done|apply Hall; unfold series_keys..];
    rewrite !elem_of_cons; tauto.
Qed.

Lemma forecast_entry_raises hourly i timestamp key :
  key ∈ series_keys →
  series_at hourly key i = Raised (Std TypeError) →
  ∃ e, forecast_entry hourly i timestamp = Raised e.
Proof.
  unfold series_keys, forecast_entry. rewrite !elem_of_cons, elem_of_nil.
  intros Hkey Hraise.
  destruct (series_at hourly "temperature_2m" i) eqn:E1; simpl; [|by eauto].
  destruct (series_at hourly "wind_speed_10m" i) eqn:E2; simpl; [|by eauto].
  destruct (series_at hourly "surface_pressure" i) eqn:E3; simpl; [|by eauto].
  destruct (series_at hourly "relative_humidity_2m" i) eqn:E4; simpl; [|by eauto].
  destruct (series_at hourly "precipitation" i) eqn:E5; simpl; [|by eauto].
  destruct Hkey as [->|[->|[->|[->|[->|[]]]]]]; congruence.
Qed.

Lemma forecast_from_list_or_missing hourly timestamps :
  (∀ key, key ∈ series_keys → list_or_missing hourly key) →
  ∀ i, forecast_from hourly i timestamps
       = Returned (imap (fun j timestamp => expected_entry hourly (i + j) timestamp)
                     timestamps).
Proof.
  intros Hall. induction timestamps as [|t ts IH]; intros i; simpl; [done|].
  rewrite forecast_entry_list_or_missing by done. simpl. rewrite IH. simpl.
  rewrite Nat.add_0_r. do 2 f_equal. apply imap_ext. intros j x _. simpl.
  f_equal. lia.
Qed.

(** X18. On a well-formed answer whose [time] is a list and whose five series
    are lists or left out, the hourly forecast has one entry per timestamp,
    in order; the entry of the [i]-th timestamp carries the [i]-th value of
    each series, and [None] for a series that is left out or has no [i]-th
    value. *)
Theorem hourly_forecast_shape w latitude longitude status
    (data hourly : gmap string pyval) timestamps :
  w_net w (length (w_sent w)) latitude longitude = Responded status (Some (PDict data)) →
  is_success status = true →
  data !! "hourly" = Some (PDict hourly) →
  hourly !! "time" = Some (PList timestamps) →
  (∀ key, key ∈ series_keys → list_or_missing hourly key) →
  fetch_hourly_forecast latitude longitude w
  = (Returned (Some {[ "hourly_forecast" :=
                         PList (imap (fun i timestamp => expected_entry hourly i timestamp)
                                  timestamps) ]}),
     after_request latitude longitude w).
Proof.
  intros Hreply Hok Hhourly Htime Hseries.
  unfold fetch_hourly_forecast, hourly_of_reply. rewrite Hreply. simpl.
  rewrite Hok. simpl. rewrite Hhourly. simpl. rewrite Htime. simpl.
  by rewrite forecast_from_list_or_missing.
Qed.

Lemma hourly_forecast_shape_witness :
  fetch_hourly_forecast 59.91 10.75
    {| w_db := Sample.db;
       w_net := fun _ _ _ =>
         Responded 200 (Some (PDict {[ "hourly" := PDict
           {[ "time" := PList [PStr "2024-03-05T00:00"; PStr "2024-03-05T01:00"];
              "temperature_2m" := PList [PNum 1.5; PNum 1.0];
              "precipitation" := PList [PNum 0.0] ]} ]}));
       w_sent := []; w_clock := fun _ => 0; w_ticks := 0 |}
  = (Returned (Some {[ "hourly_forecast" :=
       PList (imap (fun i timestamp =>
                expected_entry
                  {[ "time" := PList [PStr "2024-03-05T00:00"; PStr "2024-03-05T01:00"];
                     "temperature_2m" := PList [PNum 1.5; PNum 1.0];
                     "precipitation" := PList [PNum 0.0] ]} i timestamp)
                [PStr "2024-03-05T00:00"; PStr "2024-03-05T01:00"]) ]}),
     after_request 59.91 10.75
       {| w_db := Sample.db;
          w_net := fun _ _ _ =>
            Responded 200 (Some (PDict {[ "hourly" := PDict
              {[ "time" := PList [PStr "2024-03-05T00:00"; PStr "2024-03-05T01:00"];
                 "temperature_2m" := PList [PNum 1.5; PNum 1.0];
                 "precipitation" := PList [PNum 0.0] ]} ]}));
          w_sent := []; w_clock := fun _ => 0; w_ticks := 0 |}).
Proof.
  apply (hourly_forecast_shape _ 59.91%float 10.75%float 200
           {[ "hourly" := PDict
                {[ "time" := PList [PStr "2024-03-05T00:00"; PStr "2024-03-05T01:00"];
                   "temperature_2m" := PList [PNum 1.5; PNum 1.0];
                   "precipitation" := PList [PNum 0.0] ]} ]}).
  - reflexivity.
  - reflexivity.
  - reflexivity.
  - reflexivity.
  - unfold series_keys, list_or_missing. intros key. rewrite !elem_of_cons, elem_of_nil.
    intros [->|[->|[->|[->|[->|[]]]]]];
      first [left; reflexivity | right; eexists; reflexivity].
Defined.

Example hourly_forecast_second_entry :
  imap (fun i timestamp =>
          expected_entry
            {[ "time" := PList [PStr "2024-03-05T00:00"; PStr "2024-03-05T01:00"];
               "temperature_2m" := PList [PNum 1.5; PNum 1.0];
               "precipitation" := PList [PNum 0.0] ]} i timestamp)
       [PStr "2024-03-05T00:00"; PStr "2024-03-05T01:00"] !! 1%nat
  = Some (PDict {[ "timestamp" := PStr "2024-03-05T01:00";
                   "temperature" := PNum 1.0; "wind_speed" := PNone;
                   "pressure" := PNone; "humidity" := PNone;
                   "precipitation" := PNone ]}).
Proof. vm_compute. reflexivity. Qed.

(** X19. [fetch_hourly_forecast] always returns after one request: [None] when
    there is no response, when the status is not a success, when the body
    is not JSON or not an object; and the empty forecast, not [None], when
    the answer has no [hourly] member or its [hourly] object has no [time]. *)
Theorem hourly_forecast_failures w latitude longitude :
  ∃ r,
    fetch_hourly_forecast latitude longitude w
    = (Returned r, after_request latitude longitude w)
    ∧ (w_net w (length (w_sent w)) latitude longitude = NoResponse → r = None)
    ∧ (∀ status body,
         w_net w (length (w_sent w)) latitude longitude = Responded status body →
         (is_success status = false → r = None)
         ∧ (body = None → r = None)
         ∧ (∀ v, body = Some v → (∀ data, v ≠ PDict data) → r = None)
         ∧ (∀ data : gmap string pyval,
              is_success status = true → body = Some (PDict data) →
              data !! "hourly" = None →
              r = Some {[ "hourly_forecast" := PList [] ]})
         ∧ (∀ data hourly : gmap string pyval,
              is_success status = true → body = Some (PDict data) →
              data !! "hourly" = Some (PDict hourly) → hourly !! "time" = None →
              r = Some {[ "hourly_forecast" := PList [] ]})).
Proof.
  unfold fetch_hourly_forecast.
  destruct (hourly_of_reply _) as [r|e] eqn:E.
  - exists r. split; [done|]. unfold hourly_of_reply in E. split.
    + intros Hr. by rewrite Hr in E.
    + intros status body Hr. rewrite Hr in E. simpl in E. split_and!.
      * intros Hs. by rewrite Hs in E.
      * intros ->. by destruct (is_success status).
      * intros v -> Hv. destruct (is_success status); [|done]. simpl in E.
        destruct v; try done. by destruct (Hv d).
      * intros data Hs -> Hh. rewrite Hs in E. simpl in E. rewrite Hh in E.
        simpl in E. by injection E as <-.
      * intros data hourly Hs -> Hh Ht. rewrite Hs in E. simpl in E.
        rewrite Hh in E. simpl in E. rewrite Ht in E. simpl in E.
        by injection E as <-.
  - exists None. split; [by destruct (is_httpx_error e)|].
    unfold hourly_of_reply in E. split; [done|].
    intros status body Hr. rewrite Hr in E. simpl in E. split_and!; try done.
    + intros data Hs -> Hh. rewrite Hs in E. simpl in E. rewrite Hh in E. done.
    + intros data hourly Hs -> Hh Ht. rewrite Hs in E. simpl in E.
      rewrite Hh in E. simpl in E. rewrite Ht in E. done.
Qed.

(** X20. One series that cannot be measured loses the whole forecast: when
    [time] is a non-empty list and one of the five series is [null], a
    boolean or a number, [fetch_hourly_forecast] returns [None]. *)
Theorem hourly_forecast_null_series w latitude longitude status
    (data hourly : gmap string pyval) timestamp timestamps key v :
  w_net w (length (w_sent w)) latitude longitude = Responded status (Some (PDict data)) →
  is_success status = true →
  data !! "hourly" = Some (PDict hourly) →
  hourly !! "time" = Some (PList (timestamp :: timestamps)) →
  key ∈ series_keys →
  hourly !! key = Some v →
  (v = PNone ∨ (∃ b, v = PBool b) ∨ ∃ x, v = PNum x) →
  fetch_hourly_forecast latitude longitude w
  = (Returned None, after_request latitude longitude w).
Proof.
  intros Hreply Hok Hhourly Htime Hkey Hv Hbad.
  destruct (forecast_entry_raises hourly 0 timestamp key Hkey) as [e He];
    [by eapply series_at_unsized|].
  unfold fetch_hourly_forecast, hourly_of_reply. rewrite Hreply. simpl.
  rewrite Hok. simpl. rewrite Hhourly. simpl. rewrite Htime. simpl.
  rewrite He. simpl. by destruct (is_httpx_error e).
Qed.

Lemma hourly_forecast_null_series_witness :
  fetch_hourly_forecast 59.91 10.75
    {| w_db := Sample.db;
       w_net := fun _ _ _ =>
         Responded 200 (Some (PDict {[ "hourly" := PDict
           {[ "time" := PList [PStr "2024-03-05T00:00"];
              "temperature_2m" := PList [PNum 1.5];
              "precipitation" := PNone ]} ]}));
       w_sent := []; w_clock := fun _ => 0; w_ticks := 0 |}
  = (Returned None,
     after_request 59.91 10.75
       {| w_db := Sample.db;
          w_net := fun _ _ _ =>
            Responded 200 (Some (PDict {[ "hourly" := PDict
              {[ "time" := PList [PStr "2024-03-05T00:00"];
                 "temperature_2m" := PList [PNum 1.5];
                 "precipitation" := PNone ]} ]}));
          w_sent := []; w_clock := fun _ => 0; w_ticks := 0 |}).
Proof.
  apply (hourly_forecast_null_series _ 59.91%float 10.75%float 200
           {[ "hourly" := PDict
                {[ "time" := PList [PStr "2024-03-05T00:00"];
                   "temperature_2m" := PList [PNum 1.5];
                   "precipitation" := PNone ]} ]}
           {[ "time" := PList [PStr "2024-03-05T00:00"];
              "temperature_2m" := PList [PNum 1.5];
              "precipitation" := PNone ]}
           (PStr "2024-03-05T00:00") [] "precipitation" PNone).
  - reflexivity.
  - reflexivity.
  - reflexivity.
  - reflexivity.
  - unfold series_keys. rewrite !elem_of_cons. tauto.
  - reflexivity.
  - by left.
Defined.
